(** * Log-output routing and rotation: [configrotate] and [service/telemetry]

    A shallow embedding of

    - [config/configrotate/configrotate.go]  ([Config], [NewWriter],
      [newLumberjackWriter]),
    - [service/telemetry/telemetry.go]  ([newLogger],
      [getRotationSinkFactory], [nopSyncSink], [setRotatinURL]),

    together with the parts of Go's standard library the code calls
    ([strings], [net/url], [path/filepath.IsAbs], [os.OpenFile]) and the
    results about them that the specification states.

    Go strings are byte sequences: they are modelled as [string], whose
    characters are the 8-bit [ascii].  Go's [int] results that encode
    "absent" as [-1] ([strings.Index], [strings.LastIndex]) are modelled
    as [option nat].  A Go result pair [(v, err)] is modelled as
    [Result]. *)

From Stdlib Require Import String Ascii NArith ZArith Bool Lia.
From stdpp Require Import base option list strings gmap.
From Equations Require Import Equations.

Local Open Scope string_scope.

(* ================================================================== *)
(** * Errors and results *)

(** The error values the code can produce.  [errorString] is what
    [errors.New] and [fmt.Errorf] build (a message); the others keep the
    structure of the library's error types. *)
Inductive error : Type :=
| errorString (msg : string)
| EscapeError (s : string)
| InvalidHostError (s : string)
| invalidPortError (colonPort : string)
    (* fmt.Errorf("invalid port %q after host", colonPort) *)
| url_Error (Op URL : string) (Err : error)
| PathError (Op Path : string) (errno : Z).

Inductive Result (A : Type) : Type :=
| Ok (a : A)
| Err (e : error).
Arguments Ok {A} a.
Arguments Err {A} e.

Definition bind {A B} (r : Result A) (k : A -> Result B) : Result B :=
  match r with
  | Ok a => k a
  | Err e => Err e
  end.

Notation "'try!' x := r 'in' k" := (bind r (fun x => k))
  (at level 10, x strict pattern, r at level 100, k at level 200).

(* ================================================================== *)
(** * Bytes *)

Definition byte := ascii.
Bind Scope char_scope with byte.

Definition code (c : byte) : N := N_of_ascii c.
Arguments code c%_char_scope.

(** The double-quote byte. *)
Definition dquote : byte := ascii_of_nat 34.

(** [lo <= c && c <= hi] on bytes. *)
Definition between (lo hi c : byte) : bool :=
  (code lo <=? code c)%N && (code c <=? code hi)%N.

Arguments between (lo hi c)%_char_scope.

Definition isLower (c : byte) : bool := between "a" "z" c.
Definition isUpper (c : byte) : bool := between "A" "Z" c.
Definition isDigit (c : byte) : bool := between "0" "9" c.

(** Membership of a byte in the bytes of a string (a Go [switch c] with
    a list of byte cases). *)
Fixpoint oneOf (c : byte) (cases : string) : bool :=
  match cases with
  | EmptyString => false
  | String d cases' => Ascii.eqb c d || oneOf c cases'
  end.

(** The bytes of a string, for stating properties of all its bytes. *)
Fixpoint bytes (s : string) : list byte :=
  match s with
  | EmptyString => []
  | String c s' => c :: bytes s'
  end.

(** Slices [s[n:]] and [s[:n]]. *)
Fixpoint from (n : nat) (s : string) : string :=
  match n, s with
  | O, _ => s
  | S n', String _ s' => from n' s'
  | S _, EmptyString => EmptyString
  end.

Fixpoint upto (n : nat) (s : string) : string :=
  match n, s with
  | O, _ => EmptyString
  | S n', String c s' => String c (upto n' s')
  | S _, EmptyString => EmptyString
  end.

Definition len (s : string) : nat := String.length s.

(* ================================================================== *)
(** * Package [strings] *)

Module strings.

Definition HasPrefix (s prefix : string) : bool := String.prefix prefix s.

Definition HasSuffix (s suffix : string) : bool :=
  (len suffix <=? len s)%nat && String.eqb (from (len s - len suffix) s) suffix.

(** Index of the first instance of [substr] in [s]. *)
Fixpoint Index (s substr : string) : option nat :=
  if String.prefix substr s then Some O
  else match s with
       | EmptyString => None
       | String _ s' => option_map S (Index s' substr)
       end.

(** Index of the last instance of [substr] in [s]. *)
Fixpoint LastIndex (s substr : string) : option nat :=
  match s with
  | EmptyString => if String.prefix substr s then Some O else None
  | String _ s' =>
      match LastIndex s' substr with
      | Some i => Some (S i)
      | None => if String.prefix substr s then Some O else None
      end
  end.

Definition LastIndexByte (s : string) (c : byte) : option nat :=
  LastIndex s (String c EmptyString).

Arguments LastIndexByte s c%_char_scope.

Definition Contains (s substr : string) : bool :=
  match Index s substr with Some _ => true | None => false end.

(** [Cut(s, sep)]: the text before and after the first [sep]. *)
Definition Cut (s sep : string) : string * string * bool :=
  match Index s sep with
  | Some i => (upto i s, from (i + len sep) s, true)
  | None => (s, EmptyString, false)
  end.

(** [Count(s, substr)] for a one-byte [substr], the only use in
    [net/url]: the number of bytes of [s] equal to it. *)
Fixpoint CountByte (s : string) (c : byte) : nat :=
  match s with
  | EmptyString => O
  | String d s' => (if Ascii.eqb d c then 1 else 0) + CountByte s' c
  end.

Arguments CountByte s c%_char_scope.

(** [ToLower] on ASCII text (its argument in [net/url] is a scheme,
    which holds ASCII letters, digits, [+], [-] and [.] only). *)
Definition lowerByte (c : byte) : byte :=
  if isUpper c then ascii_of_N (code c + 32) else c.

Fixpoint ToLower (s : string) : string :=
  match s with
  | EmptyString => EmptyString
  | String c s' => String (lowerByte c) (ToLower s')
  end.

End strings.

(* ================================================================== *)
(** * Package [net/url] *)

Module url.

Inductive encoding : Type :=
| encodePath
| encodePathSegment
| encodeHost
| encodeZone
| encodeUserPassword
| encodeQueryComponent
| encodeFragment.

Definition isHostMode (mode : encoding) : bool :=
  match mode with encodeHost | encodeZone => true | _ => false end.

Definition isQueryComponent (mode : encoding) : bool :=
  match mode with encodeQueryComponent => true | _ => false end.

Definition ishex (c : byte) : bool :=
  between "0" "9" c || between "a" "f" c || between "A" "F" c.

Definition unhex (c : byte) : N :=
  if between "0" "9" c then code c - code "0"
  else if between "a" "f" c then code c - code "a" + 10
  else if between "A" "F" c then code c - code "A" + 10
  else 0.

Definition upperhex : string := "0123456789ABCDEF".

(** [upperhex[n]] for [n < 16]. *)
Definition hexdigit (n : N) : byte :=
  match String.get (N.to_nat n) upperhex with
  | Some c => c
  | None => "0"%char
  end.

(** [unhex(a)<<4 | unhex(b)] as a byte. *)
Definition unhex2 (a b : byte) : byte :=
  ascii_of_N (N.lor (N.shiftl (unhex a) 4) (unhex b)).

(** [shouldEscape(c, mode)]: must [c] be escaped in a URL part,
    according to RFC 3986. *)
Definition shouldEscape (c : byte) (mode : encoding) : bool :=
  if isLower c || isUpper c || isDigit c then false
  else if isHostMode mode && (oneOf c "!$&'()*+,;=:[]<>" || Ascii.eqb c dquote)
  then false
  else if oneOf c "-_.~" then false
  else if oneOf c "$&+,/:;=?@" then
    match mode with
    | encodePath => Ascii.eqb c "?"
    | encodePathSegment => oneOf c "/;,?"
    | encodeUserPassword => oneOf c "@/?:"
    | encodeQueryComponent => true
    | encodeFragment => false
    | encodeHost | encodeZone => true
    end
  else if match mode with encodeFragment => oneOf c "!()*" | _ => false end
  then false
  else true.


(** ** Escaping *)

(** First loop of [escape]: [(spaceCount, hexCount)]. *)
Fixpoint escapeCounts (s : string) (mode : encoding) : nat * nat :=
  match s with
  | EmptyString => (O, O)
  | String c s' =>
      let '(spaceCount, hexCount) := escapeCounts s' mode in
      if shouldEscape c mode then
        if Ascii.eqb c " " && isQueryComponent mode
        then (S spaceCount, hexCount)
        else (spaceCount, S hexCount)
      else (spaceCount, hexCount)
  end.

(** The branch [hexCount == 0]: a copy with every space turned into
    a plus sign. *)
Fixpoint spacesToPlus (s : string) : string :=
  match s with
  | EmptyString => EmptyString
  | String c s' =>
      String (if Ascii.eqb c " " then "+"%char else c) (spacesToPlus s')
  end.

(** The last loop of [escape]. *)
Fixpoint escapeBytes (s : string) (mode : encoding) : string :=
  match s with
  | EmptyString => EmptyString
  | String c s' =>
      if Ascii.eqb c " " && isQueryComponent mode then
        String "+" (escapeBytes s' mode)
      else if shouldEscape c mode then
        String "%" (String (hexdigit (N.shiftr (code c) 4))
                      (String (hexdigit (N.land (code c) 15))
                         (escapeBytes s' mode)))
      else String c (escapeBytes s' mode)
  end.

Definition escape (s : string) (mode : encoding) : string :=
  let '(spaceCount, hexCount) := escapeCounts s mode in
  if (spaceCount =? 0)%nat && (hexCount =? 0)%nat then s
  else if (hexCount =? 0)%nat then spacesToPlus s
  else escapeBytes s mode.

Definition QueryEscape (s : string) : string :=
  escape s encodeQueryComponent.

(** First loop of [unescape]: checks that every [%] starts a
    well-formed escape; gives the number [n] of escapes and [hasPlus]. *)
Fixpoint unescapeScan (s : string) (mode : encoding) (n : nat)
    (hasPlus : bool) : Result (nat * bool) :=
  match s with
  | EmptyString => Ok (n, hasPlus)
  | String c rest =>
      if Ascii.eqb c "%" then
        match rest with
        | String a (String b rest') =>
            if negb (ishex a) || negb (ishex b) then Err (EscapeError (upto 3 s))
            else if match mode with encodeHost => true | _ => false end
                    && (unhex a <? 8)%N
                    && negb (String.eqb (upto 3 s) "%25")
            then Err (EscapeError (upto 3 s))
            else if match mode with encodeZone => true | _ => false end
                    && negb (String.eqb (upto 3 s) "%25")
                    && negb (Ascii.eqb (unhex2 a b) " ")
                    && shouldEscape (unhex2 a b) encodeHost
            then Err (EscapeError (upto 3 s))
            else unescapeScan rest' mode (S n) hasPlus
        | _ => Err (EscapeError (upto 3 s))
        end
      else if Ascii.eqb c "+" then
        unescapeScan rest mode n (isQueryComponent mode)
      else if isHostMode mode && (code c <? 128)%N && shouldEscape c encodeHost
      then Err (InvalidHostError (String c EmptyString))
      else unescapeScan rest mode n hasPlus
  end.

(** Second loop of [unescape] (run on a string the first one
    accepted, so a [%] is always followed by two bytes). *)
Fixpoint unescapeBytes (s : string) (mode : encoding) : string :=
  match s with
  | EmptyString => EmptyString
  | String c rest =>
      if Ascii.eqb c "%" then
        match rest with
        | String a (String b rest') =>
            String (unhex2 a b) (unescapeBytes rest' mode)
        | _ => EmptyString
        end
      else if Ascii.eqb c "+" then
        String (if isQueryComponent mode then " "%char else "+"%char)
               (unescapeBytes rest mode)
      else String c (unescapeBytes rest mode)
  end.

Definition unescape (s : string) (mode : encoding) : Result string :=
  try! (n, hasPlus) := unescapeScan s mode 0 false in
  if (n =? 0)%nat && negb hasPlus then Ok s
  else Ok (unescapeBytes s mode).

Definition QueryUnescape (s : string) : Result string :=
  unescape s encodeQueryComponent.

(** [validEncoded(s, mode)]. *)
Fixpoint validEncoded (s : string) (mode : encoding) : bool :=
  match s with
  | EmptyString => true
  | String c s' =>
      (oneOf c "!$&'()*+,;=:@" || oneOf c "[]" || Ascii.eqb c "%"
       || negb (shouldEscape c mode))
      && validEncoded s' mode
  end.

(** ** The URL type *)

Record Userinfo : Type := mkUserinfo {
  username : string;
  password : string;
  passwordSet : bool
}.

Record URL : Type := mkURL {
  Scheme : string;
  Opaque : string;
  User : option Userinfo;
  Host : string;
  Path : string;
  RawPath : string;
  OmitHost : bool;
  ForceQuery : bool;
  RawQuery : string;
  Fragment : string;
  RawFragment : string
}.

(** [new(URL)]: every field at its zero value. *)
Definition newURL : URL :=
  mkURL "" "" None "" "" "" false false "" "" "".

Definition withScheme (v : string) (u : URL) : URL :=
  mkURL v (Opaque u) (User u) (Host u) (Path u) (RawPath u) (OmitHost u)
        (ForceQuery u) (RawQuery u) (Fragment u) (RawFragment u).
Definition withOpaque (v : string) (u : URL) : URL :=
  mkURL (Scheme u) v (User u) (Host u) (Path u) (RawPath u) (OmitHost u)
        (ForceQuery u) (RawQuery u) (Fragment u) (RawFragment u).
Definition withAuthority (usr : option Userinfo) (h : string) (u : URL) : URL :=
  mkURL (Scheme u) (Opaque u) usr h (Path u) (RawPath u) (OmitHost u)
        (ForceQuery u) (RawQuery u) (Fragment u) (RawFragment u).
Definition withPath (v raw : string) (u : URL) : URL :=
  mkURL (Scheme u) (Opaque u) (User u) (Host u) v raw (OmitHost u)
        (ForceQuery u) (RawQuery u) (Fragment u) (RawFragment u).
Definition withOmitHost (v : bool) (u : URL) : URL :=
  mkURL (Scheme u) (Opaque u) (User u) (Host u) (Path u) (RawPath u) v
        (ForceQuery u) (RawQuery u) (Fragment u) (RawFragment u).
Definition withForceQuery (v : bool) (u : URL) : URL :=
  mkURL (Scheme u) (Opaque u) (User u) (Host u) (Path u) (RawPath u)
        (OmitHost u) v (RawQuery u) (Fragment u) (RawFragment u).
Definition withRawQuery (v : string) (u : URL) : URL :=
  mkURL (Scheme u) (Opaque u) (User u) (Host u) (Path u) (RawPath u)
        (OmitHost u) (ForceQuery u) v (Fragment u) (RawFragment u).
Definition withFragment (v raw : string) (u : URL) : URL :=
  mkURL (Scheme u) (Opaque u) (User u) (Host u) (Path u) (RawPath u)
        (OmitHost u) (ForceQuery u) (RawQuery u) v raw.

(** [Userinfo.String] on a non-nil receiver. *)
Definition Userinfo_String (ui : Userinfo) : string :=
  let s := escape (username ui) encodeUserPassword in
  if passwordSet ui
  then s ++ ":" ++ escape (password ui) encodeUserPassword
  else s.

(** ** Parsing *)

(** The loop of [getScheme] at index [i], where [s] is [rawURL[i:]]. *)
Fixpoint getSchemeFrom (rawURL : string) (i : nat) (s : string)
    : Result (string * string) :=
  match s with
  | EmptyString => Ok ("", rawURL)
  | String c s' =>
      if isLower c || isUpper c then getSchemeFrom rawURL (S i) s'
      else if isDigit c || oneOf c "+-." then
        if (i =? 0)%nat then Ok ("", rawURL)
        else getSchemeFrom rawURL (S i) s'
      else if Ascii.eqb c ":" then
        if (i =? 0)%nat then Err (errorString "missing protocol scheme")
        else Ok (upto i rawURL, from (i + 1) rawURL)
      else Ok ("", rawURL)
  end.

Definition getScheme (rawURL : string) : Result (string * string) :=
  getSchemeFrom rawURL 0 rawURL.

Fixpoint stringContainsCTLByte (s : string) : bool :=
  match s with
  | EmptyString => false
  | String b s' =>
      if (code b <? code " ")%N || (code b =? 127)%N then true
      else stringContainsCTLByte s'
  end.

Fixpoint allDigits (s : string) : bool :=
  match s with
  | EmptyString => true
  | String b s' =>
      if (code b <? code "0")%N || (code "9" <? code b)%N then false
      else allDigits s'
  end.

(** [validOptionalPort(port)]: [port] is empty or [":"] and digits. *)
Definition validOptionalPort (port : string) : bool :=
  match port with
  | EmptyString => true
  | String c port' =>
      if negb (Ascii.eqb c ":") then false else allDigits port'
  end.

Fixpoint validUserinfo (s : string) : bool :=
  match s with
  | EmptyString => true
  | String r s' =>
      if isUpper r || isLower r || isDigit r
         || oneOf r "-._:~!$&'()*+,;=%@"
      then validUserinfo s'
      else false
  end.

(** [parseHost(host)]: [host] is an authority without user
    information, that is [host[:port]]. *)
Definition parseHost (host : string) : Result string :=
  if strings.HasPrefix host "[" then
    match strings.LastIndex host "]" with
    | None => Err (errorString "missing ']' in host")
    | Some i =>
        let colonPort := from (i + 1) host in
        if negb (validOptionalPort colonPort)
        then Err (invalidPortError colonPort)
        else
          match strings.Index (upto i host) "%25" with
          | Some zone =>
              try! host1 := unescape (upto zone host) encodeHost in
              try! host2 := unescape (from zone (upto i host)) encodeZone in
              try! host3 := unescape (from i host) encodeHost in
              Ok (host1 ++ host2 ++ host3)
          | None => unescape host encodeHost
          end
    end
  else
    match strings.LastIndex host ":" with
    | Some i =>
        let colonPort := from i host in
        if negb (validOptionalPort colonPort)
        then Err (invalidPortError colonPort)
        else unescape host encodeHost
    | None => unescape host encodeHost
    end.

Definition parseAuthority (authority : string)
    : Result (option Userinfo * string) :=
  match strings.LastIndex authority "@" with
  | None =>
      try! host := parseHost authority in
      Ok (None, host)
  | Some i =>
      try! host := parseHost (from (i + 1) authority) in
      let userinfo := upto i authority in
      if negb (validUserinfo userinfo)
      then Err (errorString "net/url: invalid userinfo")
      else if negb (strings.Contains userinfo ":") then
        try! userinfo := unescape userinfo encodeUserPassword in
        Ok (Some (mkUserinfo userinfo "" false), host)
      else
        let '(username, password, _) := strings.Cut userinfo ":" in
        try! username := unescape username encodeUserPassword in
        try! password := unescape password encodeUserPassword in
        Ok (Some (mkUserinfo username password true), host)
  end.

Definition setPath (p : string) (u : URL) : Result URL :=
  try! path := unescape p encodePath in
  if String.eqb p (escape path encodePath)
  then Ok (withPath path "" u)
  else Ok (withPath path p u).

Definition setFragment (f : string) (u : URL) : Result URL :=
  try! frag := unescape f encodeFragment in
  if String.eqb f (escape frag encodeFragment)
  then Ok (withFragment frag "" u)
  else Ok (withFragment frag f u).

(** [parse(rawURL, viaRequest)]; [rawURL] holds no [#fragment]. *)
Definition parse (rawURL : string) (viaRequest : bool) : Result URL :=
  if stringContainsCTLByte rawURL
  then Err (errorString "net/url: invalid control character in URL")
  else if String.eqb rawURL "" && viaRequest
  then Err (errorString "empty url")
  else if String.eqb rawURL "*" then Ok (withPath "*" "" newURL)
  else
    try! (scheme, rest) := getScheme rawURL in
    let url := withScheme (strings.ToLower scheme) newURL in
    let '(url, rest) :=
      if strings.HasSuffix rest "?" && (strings.CountByte rest "?" =? 1)%nat
      then (withForceQuery true url, upto (len rest - 1) rest)
      else let '(rest, query, _) := strings.Cut rest "?" in
           (withRawQuery query url, rest) in
    if negb (strings.HasPrefix rest "/") && negb (String.eqb (Scheme url) "")
    then Ok (withOpaque rest url)
    else if negb (strings.HasPrefix rest "/") && viaRequest
    then Err (errorString "invalid URI for request")
    else if negb (strings.HasPrefix rest "/")
            && strings.Contains (strings.Cut rest "/").1.1 ":"
    then Err (errorString "first path segment in URL cannot contain colon")
    else
      try! (url, rest) :=
        if (negb (String.eqb (Scheme url) "")
            || negb viaRequest && negb (strings.HasPrefix rest "///"))
           && strings.HasPrefix rest "//"
        then
          let authority := from 2 rest in
          let '(authority, rest) :=
            match strings.Index authority "/" with
            | Some i => (upto i authority, from i authority)
            | None => (authority, "")
            end in
          try! (user, host) := parseAuthority authority in
          Ok (withAuthority user host url, rest)
        else if negb (String.eqb (Scheme url) "") && strings.HasPrefix rest "/"
        then Ok (withOmitHost true url, rest)
        else Ok (url, rest) in
      setPath rest url.

(** [Parse(rawURL)]. *)
Definition Parse (rawURL : string) : Result URL :=
  let '(u, frag, _) := strings.Cut rawURL "#" in
  match parse u false with
  | Err err => Err (url_Error "parse" u err)
  | Ok url =>
      if String.eqb frag "" then Ok url
      else match setFragment frag url with
           | Err err => Err (url_Error "parse" rawURL err)
           | Ok url => Ok url
           end
  end.


(** ** Accessors and printing *)

Definition splitHostPort (hostPort : string) : string * string :=
  let '(host, port) :=
    match strings.LastIndexByte hostPort ":" with
    | Some colon =>
        if validOptionalPort (from colon hostPort)
        then (upto colon hostPort, from (colon + 1) hostPort)
        else (hostPort, "")
    | None => (hostPort, "")
    end in
  if strings.HasPrefix host "[" && strings.HasSuffix host "]"
  then (upto (len host - 1 - 1) (from 1 host), port)
  else (host, port).

Definition Hostname (u : URL) : string := (splitHostPort (Host u)).1.

Definition Port (u : URL) : string := (splitHostPort (Host u)).2.

Definition EscapedPath (u : URL) : string :=
  if negb (String.eqb (RawPath u) "")
     && validEncoded (RawPath u) encodePath
     && match unescape (RawPath u) encodePath with
        | Ok p => String.eqb p (Path u)
        | Err _ => false
        end
  then RawPath u
  else if String.eqb (Path u) "*" then "*"
  else escape (Path u) encodePath.

Definition EscapedFragment (u : URL) : string :=
  if negb (String.eqb (RawFragment u) "")
     && validEncoded (RawFragment u) encodeFragment
     && match unescape (RawFragment u) encodeFragment with
        | Ok f => String.eqb f (Fragment u)
        | Err _ => false
        end
  then RawFragment u
  else escape (Fragment u) encodeFragment.

Definition isSome {A} (o : option A) : bool :=
  match o with Some _ => true | None => false end.

(** [URL.String]: the URL reassembled into [scheme://userinfo@host/path?query#fragment]
    (or [scheme:opaque?query#fragment]).  The string builder [buf] is
    threaded through the statements. *)
Definition String_ (u : URL) : string :=
  let buf := "" in
  let buf := if negb (String.eqb (Scheme u) "")
             then buf ++ Scheme u ++ ":" else buf in
  let buf :=
    if negb (String.eqb (Opaque u) "") then buf ++ Opaque u
    else
      let buf :=
        if negb (String.eqb (Scheme u) "") || negb (String.eqb (Host u) "")
           || isSome (User u)
        then
          if OmitHost u && String.eqb (Host u) "" && negb (isSome (User u))
          then buf
          else
            let buf :=
              if negb (String.eqb (Host u) "") || negb (String.eqb (Path u) "")
                 || isSome (User u)
              then buf ++ "//" else buf in
            let buf :=
              match User u with
              | Some ui => buf ++ Userinfo_String ui ++ "@"
              | None => buf
              end in
            if negb (String.eqb (Host u) "")
            then buf ++ escape (Host u) encodeHost
            else buf
        else buf in
      let path := EscapedPath u in
      let buf :=
        if negb (String.eqb path "") && negb (strings.HasPrefix path "/")
           && negb (String.eqb (Host u) "")
        then buf ++ "/" else buf in
      let buf :=
        if (len buf =? 0)%nat && strings.Contains (strings.Cut path "/").1.1 ":"
        then buf ++ "./" else buf in
      buf ++ path in
  let buf :=
    if ForceQuery u || negb (String.eqb (RawQuery u) "")
    then buf ++ "?" ++ RawQuery u else buf in
  if negb (String.eqb (Fragment u) "")
  then buf ++ "#" ++ EscapedFragment u
  else buf.

(** ** Query values *)

(** [Values] is [map[string][]string]. *)
Abbreviation Values := (gmap string (list string)).

(** [v.Get(key)]: the first value of [key], or the empty string. *)
Definition Get (v : Values) (key : string) : string :=
  match v !! key with
  | Some (x :: _) => x
  | _ => ""
  end.

(** One iteration of the loop of [parseQuery], for the setting [key]
    cut off the front of the query. *)
Definition parseQueryKey (m : Values) (key : string) (err : option error)
    : Values * option error :=
  if strings.Contains key ";"
  then (m, Some (errorString "invalid semicolon separator in query"))
  else if String.eqb key "" then (m, err)
  else
    let '(key, value, _) := strings.Cut key "=" in
    match QueryUnescape key with
    | Err err1 => (m, if isSome err then err else Some err1)
    | Ok key =>
        match QueryUnescape value with
        | Err err1 => (m, if isSome err then err else Some err1)
        | Ok value => (<[key := (default [] (m !! key) ++ [value])%list]> m, err)
        end
    end.


(** The rest of the query after its first setting: shorter than the
    query, which is what makes the loop of [parseQuery] end. *)
Definition afterAmp (query : string) : string :=
  (strings.Cut query "&").1.2.

(** [parseQuery(m, query)]: [for query != "" { key, query, _ =
    strings.Cut(query, "&"); ... }], with the named result [err]. *)
Equations? parseQuery (m : Values) (query : string) (err : option error)
    : Values * option error by wf (len query) lt :=
  parseQuery m EmptyString err := (m, err);
  parseQuery m (String c q) err :=
    let r := parseQueryKey m (strings.Cut (String c q) "&").1.1 err in
    parseQuery r.1 (afterAmp (String c q)) r.2.
Proof.
  assert (Hfrom : forall n s, len (from n s) <= len s - n).
  { induction n as [|n IH]; intros [|a s]; simpl; try lia.
    specialize (IH s). unfold len in *. lia. }
  unfold afterAmp, strings.Cut.
  destruct (strings.Index (String c q) "&") as [i|]; simpl.
  - specialize (Hfrom (i + 1) (String c q)). simpl in Hfrom.
    unfold len in *. simpl in *. lia.
  - lia.
Qed.

Definition ParseQuery (query : string) : Values * option error :=
  parseQuery ∅ query None.

(** [u.Query()]: the parsed [RawQuery], malformed pairs dropped. *)
Definition Query (u : URL) : Values := (ParseQuery (RawQuery u)).1.

End url.

(* ================================================================== *)
(** * The host: platform, operating system, process state *)

(** [runtime.GOOS] and the platform's [filepath.IsAbs]. *)
Class Platform : Type := {
  GOOS : string;
  IsAbs : string -> bool
}.

(** [path/filepath.IsAbs], which differs by platform. *)
Module filepath.

(** On Unix a path is absolute when it starts with a slash. *)
Definition IsAbs_unix (path : string) : bool := strings.HasPrefix path "/".

Definition isSlash (c : byte) : bool := Ascii.eqb c "\" || Ascii.eqb c "/".

Definition toUpper (c : byte) : byte :=
  if isLower c then ascii_of_N (code c - 32) else c.

(** [cutPath] slices [path] around the first path separator. *)
Fixpoint cutPath (path : string) : string * string * bool :=
  match path with
  | EmptyString => (EmptyString, EmptyString, false)
  | String c rest =>
      if isSlash c then (EmptyString, rest, true)
      else let '(before, after, found) := cutPath rest in
           (String c before, after, found)
  end.

(** [volumeNameLen]: the length of the leading volume name on Windows,
    a drive letter with its colon or the host and share of a UNC or
    device path. *)
Definition volumeNameLen (path : string) : nat :=
  match path with
  | String c (String c1 rest) =>
      if Ascii.eqb c1 ":" && (isLower c || isUpper c) then 2
      else if negb (isSlash c) || negb (isSlash c1) then 0
      else
        let '(p1, rest, _) := cutPath rest in
        let '(p2, rest, ok) := cutPath rest in
        if negb ok then len path
        else if negb (String.eqb p1 ".") && negb (String.eqb p1 "?")
        then len path - len rest - 1
        else if match p2 with
                | String a (String b (String d EmptyString)) =>
                    Ascii.eqb (toUpper a) "U" && Ascii.eqb (toUpper b) "N"
                    && Ascii.eqb (toUpper d) "C"
                | _ => false
                end
        then
          let '(_, rest, _) := cutPath rest in
          let '(_, rest, ok) := cutPath rest in
          if negb ok then len path else len path - len rest - 1
        else len path - len rest - 1
  | _ => 0
  end.

(** On Windows a path is absolute when it has a volume name that starts
    with two slashes, or a drive followed by a slash.  (The names of
    devices, such as [NUL], which some releases also report as absolute,
    are left out.) *)
Definition IsAbs_windows (path : string) : bool :=
  let l := volumeNameLen path in
  if (l =? 0)%nat then false
  else
    match path with
    | String c (String c1 _) =>
        if isSlash c && isSlash c1 then true
        else match from l path with
             | EmptyString => false
             | String c2 _ => isSlash c2
             end
    | _ => false
    end.

End filepath.

Definition linux : Platform :=
  {| GOOS := "linux"; IsAbs := filepath.IsAbs_unix |}.

Definition windows : Platform :=
  {| GOOS := "windows"; IsAbs := filepath.IsAbs_windows |}.

(** The process and its environment: the state [World] that system
    calls and the logging library read and change.  [sys_open] is the
    [open] system call behind [os.OpenFile]: a file descriptor or an
    error number. *)
Class OS : Type := {
  World : Type;
  sys_open : string -> Z -> Z -> World -> World * (Z + Z)
}.

(** Computations in the process: state passing with errors. *)
Definition IO `{OS} (A : Type) : Type := World -> World * Result A.

Definition ret `{OS} {A} (a : A) : IO A := fun w => (w, Ok a).

Definition iobind `{OS} {A B} (m : IO A) (k : A -> IO B) : IO B :=
  fun w => match m w with
           | (w', Ok a) => k a w'
           | (w', Err e) => (w', Err e)
           end.

Definition lift `{OS} {A} (r : Result A) : IO A := fun w => (w, r).

Notation "'do!' x := m 'in' k" := (iobind m (fun x => k))
  (at level 10, x strict pattern, m at level 100, k at level 200).

(* ================================================================== *)
(** * Package [os] *)

Module os.

(** The flags of [OpenFile] (values of Linux, which Go's [syscall]
    also uses on Windows). *)
Definition O_WRONLY : Z := 0x1.
Definition O_CREATE : Z := 0x40.
Definition O_APPEND : Z := 0x400.
Definition O_ACCMODE : Z := 0x3.

(** An open file: [*os.File]. *)
Record File : Type := mkFile {
  fd : Z;
  name : string;
  appendMode : bool
}.

Definition Name (f : File) : string := name f.

(** [OpenFile(name, flag, perm)]: the system call, its error wrapped
    in a [*PathError]. *)
Definition OpenFile `{OS} (name : string) (flag perm : Z) : IO File :=
  fun w =>
    match sys_open name flag perm w with
    | (w', inl r) => (w', Ok (mkFile r name (negb (Z.land flag O_APPEND =? 0)%Z)))
    | (w', inr e) => (w', Err (PathError "open" name e))
    end.

End os.

(* ================================================================== *)
(** * Package [lumberjack] *)

Module lumberjack.

(** [lumberjack.Logger]: the rotating writer.  Creating the value
    opens nothing; the file is opened at the first write. *)
Record Logger : Type := mkLogger {
  Filename : string;
  MaxSize : Z;
  MaxAge : Z;
  MaxBackups : Z;
  LocalTime : bool;
  Compress : bool
}.

End lumberjack.

(* ================================================================== *)
(** * Package [io] *)

(** [io.WriteCloser] as an interface: the types that have [Write] and
    [Close]. *)
Class WriteCloser `{OS} (W : Type) : Type := {
  Write : W -> list byte -> World -> World * (Z * option error);
  Close : W -> World -> World * option error
}.

(** The values [NewWriter] returns behind [io.WriteCloser]. *)
Inductive Writer : Type :=
| FileWriter (f : os.File)
| RotatingWriter (l : lumberjack.Logger).

(* ================================================================== *)
(** * Package [configrotate] *)

Module configrotate.

Record Config : Type := mkConfig {
  Enabled : bool;
  MaxMegabytes : Z;
  MaxDays : Z;
  MaxBackups : Z;
  LocalTime : bool
}.

Definition newLumberjackWriter (cfg : Config) (filename : string) : Writer :=
  RotatingWriter
    {| lumberjack.Filename := filename;
       lumberjack.MaxSize := MaxMegabytes cfg;
       lumberjack.MaxAge := MaxDays cfg;
       lumberjack.MaxBackups := MaxBackups cfg;
       lumberjack.LocalTime := LocalTime cfg;
       lumberjack.Compress := false |}.

Definition NewWriter `{OS} (cfg : Config) (filename : string) : IO Writer :=
  if negb (Enabled cfg) then
    do! f := os.OpenFile filename
               (Z.lor (Z.lor os.O_WRONLY os.O_APPEND) os.O_CREATE)
               420 (* 0644 *) in
    ret (FileWriter f)
  else ret (newLumberjackWriter cfg filename).

End configrotate.

(* ================================================================== *)
(** * Package [zap] (the logging frontend) *)

(** [zap.Sink]: a [WriteCloser] that can also [Sync]. *)
Class Sink `{OS} (S : Type) : Type := {
  Sink_WriteCloser :: WriteCloser S;
  Sync : S -> World -> World * option error
}.

Module zap.

Record SamplingConfig : Type := mkSamplingConfig {
  Initial : Z;
  Thereafter : Z
}.

Inductive TimeEncoder : Type :=
| EpochTimeEncoder
| ISO8601TimeEncoder.

(** [zapcore.EncoderConfig], reduced to the field the code sets. *)
Record EncoderConfig : Type := mkEncoderConfig {
  EncodeTime : TimeEncoder
}.

Definition NewProductionEncoderConfig : EncoderConfig :=
  {| EncodeTime := EpochTimeEncoder |}.

Record Config (Fields : Type) : Type := mkConfig {
  Level : Z;
  Development : bool;
  DisableCaller : bool;
  DisableStacktrace : bool;
  Sampling : option SamplingConfig;
  Encoding : string;
  EncoderConfig_ : EncoderConfig;
  OutputPaths : list string;
  ErrorOutputPaths : list string;
  InitialFields : Fields
}.
Arguments mkConfig {Fields}.
Arguments Level {Fields}.
Arguments Development {Fields}.
Arguments DisableCaller {Fields}.
Arguments DisableStacktrace {Fields}.
Arguments Sampling {Fields}.
Arguments Encoding {Fields}.
Arguments EncoderConfig_ {Fields}.
Arguments OutputPaths {Fields}.
Arguments ErrorOutputPaths {Fields}.
Arguments InitialFields {Fields}.

End zap.

(** What the code uses of the libraries it is linked with: the [Write]
    and [Close] methods of [*os.File] and [*lumberjack.Logger]; from zap
    the types of loggers, of logger options and of initial-field maps,
    the registration of a sink factory for a URL scheme in the
    process-wide registry (part of [World]) and the construction of a
    logger; the draw of a random UUID. *)
Class Libraries `{OS} : Type := {
  Writer_WriteCloser :: WriteCloser Writer;
  Logger : Type;
  Option_ : Type;
  Fields : Type;
  RegisterSink :
    forall (S : Type), Sink S ->
      string -> (url.URL -> IO S) -> World -> World * option error;
  Build : zap.Config Fields -> list Option_ -> IO Logger;
  uuid_NewString : World -> World * string
}.
Arguments RegisterSink {_ _} S {_}.

(* ================================================================== *)
(** * Package [telemetry] *)

Module telemetry.

Record LogsSamplingConfig : Type := mkLogsSamplingConfig {
  Initial : Z;
  Thereafter : Z
}.

Record LogsConfig `{Libraries} : Type := mkLogsConfig {
  Level : Z;
  Development : bool;
  Encoding : string;
  DisableCaller : bool;
  DisableStacktrace : bool;
  Sampling : option LogsSamplingConfig;
  OutputPaths : list string;
  ErrorOutputPaths : list string;
  InitialFields : Fields;
  Rotation : option configrotate.Config
}.

Definition toSamplingConfig (sc : option LogsSamplingConfig)
    : option zap.SamplingConfig :=
  match sc with
  | None => None
  | Some sc =>
      Some {| zap.Initial := Initial sc; zap.Thereafter := Thereafter sc |}
  end.

(** ** [nopSyncSink] *)

(** A struct that embeds an [io.WriteCloser]. *)
Record nopSyncSink (W : Type) : Type := mkNopSyncSink {
  embedded : W
}.
Arguments mkNopSyncSink {W}.
Arguments embedded {W}.

(** The methods promoted from the embedded field. *)
#[export] Instance nopSyncSink_WriteCloser `{OS} {W} `{!WriteCloser W}
    : WriteCloser (nopSyncSink W) :=
  {| Write := fun s => Write (embedded s);
     Close := fun s => Close (embedded s) |}.

(** [func (w nopSyncSink) Sync() error { return nil }] *)
#[export] Instance nopSyncSink_Sink `{OS} {W} `{!WriteCloser W}
    : Sink (nopSyncSink W) :=
  {| Sync := fun _ w => (w, None) |}.

(** ** [getRotationSinkFactory] *)

Definition getRotationSinkFactory `{OS} (cfg : configrotate.Config)
    : url.URL -> IO (nopSyncSink Writer) :=
  fun u =>
    let p := url.Get (url.Query u) "path" in
    do! writer := configrotate.NewWriter cfg p in
    ret (mkNopSyncSink writer).

(** ** [setRotatinURL] *)

Section Rewrite.
Context `{Platform}.

(** The test that opens the loop body. *)
Definition windowsAbs (p : string) : bool :=
  String.eqb GOOS "windows" && IsAbs p.

(** The test [(u.Scheme == "" || u.Scheme == "file") && u.Path !=
    "stdout" && u.Path != "stderr"]. *)
Definition fileBacked (u : url.URL) : bool :=
  (String.eqb (url.Scheme u) "" || String.eqb (url.Scheme u) "file")
  && negb (String.eqb (url.Path u) "stdout")
  && negb (String.eqb (url.Path u) "stderr").

(** [fmt.Errorf(format + ": got %v", u)]: [%v] prints a [*url.URL]
    with its [String] method. *)
Definition errorfGot (msg : string) (u : url.URL) : error :=
  errorString (msg ++ ": got " ++ url.String_ u).

(** The body of the loop for the path [p]: the string appended to
    [res], or the error returned. *)
Definition rotationURL (rotationSchema p : string) : Result string :=
  if windowsAbs p then
    Ok (rotationSchema ++ ":?path=" ++ url.QueryEscape p)
  else
    try! u := url.Parse p in
    if fileBacked u then
      if url.isSome (url.User u) then
        Err (errorfGot "user and password not allowed with file URLs" u)
      else if negb (String.eqb (url.Fragment u) "") then
        Err (errorfGot "fragments not allowed with file URLs" u)
      else if negb (String.eqb (url.RawQuery u) "") then
        Err (errorfGot "query parameters not allowed with file URLs" u)
      else if negb (String.eqb (url.Port u) "") then
        Err (errorfGot "ports not allowed with file URLs" u)
      else if negb (String.eqb (url.Hostname u) "")
              && negb (String.eqb (url.Hostname u) "localhost") then
        Err (errorfGot "file URLs must leave host empty or use localhost" u)
      else Ok (rotationSchema ++ ":?path=" ++ url.QueryEscape (url.Path u))
    else Ok p.

(** The loop over [paths], with the slice [res] built so far. *)
Fixpoint setRotatinURLFrom (paths : list string) (rotationSchema : string)
    (res : list string) : Result (list string) :=
  match paths with
  | [] => Ok res
  | p :: paths' =>
      match rotationURL rotationSchema p with
      | Err err => Err err
      | Ok s => setRotatinURLFrom paths' rotationSchema (res ++ [s])%list
      end
  end.

Definition setRotatinURL (paths : list string) (rotationSchema : string)
    : Result (list string) :=
  setRotatinURLFrom paths rotationSchema [].

End Rewrite.

(** ** [newLogger] *)

Section NewLogger.
Context `{Platform} `{Libraries}.

(** [zap.RegisterSink(scheme, factory)] as a computation. *)
Definition registerSink {S} `{!Sink S} (scheme : string)
    (factory : url.URL -> IO S) : IO unit :=
  fun w => match RegisterSink S scheme factory w with
           | (w', Some err) => (w', Err err)
           | (w', None) => (w', Ok tt)
           end.

Definition newUUID : IO string :=
  fun w => let '(w', s) := uuid_NewString w in (w', Ok s).

(** The [zap.Config] that [newLogger] first builds. *)
Definition initialZapConfig (cfg : LogsConfig) : zap.Config Fields :=
  {| zap.Level := Level cfg;
     zap.Development := Development cfg;
     zap.Sampling := toSamplingConfig (Sampling cfg);
     zap.Encoding := Encoding cfg;
     zap.EncoderConfig_ := zap.NewProductionEncoderConfig;
     zap.OutputPaths := OutputPaths cfg;
     zap.ErrorOutputPaths := ErrorOutputPaths cfg;
     zap.DisableCaller := DisableCaller cfg;
     zap.DisableStacktrace := DisableStacktrace cfg;
     zap.InitialFields := InitialFields cfg |}.

Definition withEncodeTime (e : zap.TimeEncoder) (c : zap.Config Fields)
    : zap.Config Fields :=
  zap.mkConfig (zap.Level c) (zap.Development c) (zap.DisableCaller c)
    (zap.DisableStacktrace c) (zap.Sampling c) (zap.Encoding c)
    {| zap.EncodeTime := e |}
    (zap.OutputPaths c) (zap.ErrorOutputPaths c) (zap.InitialFields c).

Definition withOutputPaths (v : list string) (c : zap.Config Fields)
    : zap.Config Fields :=
  zap.mkConfig (zap.Level c) (zap.Development c) (zap.DisableCaller c)
    (zap.DisableStacktrace c) (zap.Sampling c) (zap.Encoding c)
    (zap.EncoderConfig_ c)
    v (zap.ErrorOutputPaths c) (zap.InitialFields c).

Definition withErrorOutputPaths (v : list string) (c : zap.Config Fields)
    : zap.Config Fields :=
  zap.mkConfig (zap.Level c) (zap.Development c) (zap.DisableCaller c)
    (zap.DisableStacktrace c) (zap.Sampling c) (zap.Encoding c)
    (zap.EncoderConfig_ c)
    (zap.OutputPaths c) v (zap.InitialFields c).

Definition newLogger (cfg : LogsConfig) (options : list Option_)
    : IO Logger :=
  let zapCfg := initialZapConfig cfg in
  let zapCfg :=
    if String.eqb (zap.Encoding zapCfg) "console"
    then withEncodeTime zap.ISO8601TimeEncoder zapCfg
    else zapCfg in
  do! zapCfg :=
    match Rotation cfg with
    | Some rotation =>
        if configrotate.Enabled rotation then
          do! id := newUUID in
          let rotationSchema := "rotation-" ++ id in
          do! _ := registerSink rotationSchema
                     (getRotationSinkFactory rotation) in
          do! outputPaths :=
            lift (setRotatinURL (zap.OutputPaths zapCfg) rotationSchema) in
          let zapCfg := withOutputPaths outputPaths zapCfg in
          do! errorOutputPaths :=
            lift (setRotatinURL (zap.ErrorOutputPaths zapCfg) rotationSchema) in
          ret (withErrorOutputPaths errorOutputPaths zapCfg)
        else ret zapCfg
    | None => ret zapCfg
    end in
  Build zapCfg options.

End NewLogger.

End telemetry.

(* ================================================================== *)
(** * Vocabulary of the specification *)

(** A property of every byte of a string. *)
Fixpoint allBytes (P : byte -> bool) (s : string) : bool :=
  match s with
  | EmptyString => true
  | String c s' => P c && allBytes P s'
  end.

(** Bytes with a meaning of their own in a destination: control bytes,
    which no URL may hold, and the delimiters of a fragment, of a
    query, of an escape and of a scheme. *)
Definition specialByte (c : byte) : bool :=
  (code c <? code " ")%N || (code c =? 127)%N || oneOf c "#?%:".

(** A bare filesystem path: no special byte (so no scheme), and not one
    of the two keywords. *)
Definition barePath (p : string) : Prop :=
  allBytes (fun c => negb (specialByte c)) p = true
  /\ p <> "stdout" /\ p <> "stderr".

(** A path that starts with exactly two slashes, which a URL parser
    reads as the start of an authority ([//host/path]). *)
Definition networkPath (p : string) : bool :=
  strings.HasPrefix p "//" && negb (strings.HasPrefix p "///").

(** A namespace that can serve as a URL scheme: a letter, then letters,
    digits, [+], [-] and [.]. *)
Definition schemeByte (c : byte) : bool :=
  isLower c || isUpper c || isDigit c || oneOf c "+-.".

Definition validScheme (ns : string) : bool :=
  match ns with
  | EmptyString => false
  | String c s => (isLower c || isUpper c) && allBytes schemeByte s
  end.

(** The rewritten form of a path: [<namespace>:?path=<percent-encoded path>]. *)
Definition rewritten (ns p : string) : string :=
  ns ++ ":?path=" ++ url.QueryEscape p.

(** The five constraints on a file-backed destination, in the order of
    the specification. *)
Inductive Component : Type :=
| UserInfo
| FragmentPart
| QueryPart
| PortPart
| HostnamePart.

Definition checkOrder : list Component :=
  [UserInfo; FragmentPart; QueryPart; PortPart; HostnamePart].

Definition violates (u : url.URL) (c : Component) : bool :=
  match c with
  | UserInfo => url.isSome (url.User u)
  | FragmentPart => negb (String.eqb (url.Fragment u) "")
  | QueryPart => negb (String.eqb (url.RawQuery u) "")
  | PortPart => negb (String.eqb (url.Port u) "")
  | HostnamePart =>
      negb (String.eqb (url.Hostname u) "")
      && negb (String.eqb (url.Hostname u) "localhost")
  end.

(** The first violated constraint, if any. *)
Definition firstViolation (u : url.URL) : option Component :=
  List.find (violates u) checkOrder.

(** The text that names the component in the error. *)
Definition complaint (c : Component) : string :=
  match c with
  | UserInfo => "user and password not allowed with file URLs"
  | FragmentPart => "fragments not allowed with file URLs"
  | QueryPart => "query parameters not allowed with file URLs"
  | PortPart => "ports not allowed with file URLs"
  | HostnamePart => "file URLs must leave host empty or use localhost"
  end.

(** The byte [d] does not occur in [s]. *)
Definition absent (d : byte) (s : string) : bool :=
  allBytes (fun c => negb (Ascii.eqb c d)) s.

(** The bytes that the percent-encoding of a query component writes. *)
Definition escapedByte (c : byte) : bool :=
  isLower c || isUpper c || isDigit c || oneOf c "-_.~%+".

(** The flags of the plain open of [NewWriter]. *)
Definition appendFlags : Z :=
  Z.lor (Z.lor os.O_WRONLY os.O_APPEND) os.O_CREATE.

(** An error carries a string when its message holds it. *)
Definition carries (e : error) (s : string) : bool :=
  match e with
  | errorString msg => strings.Contains msg s
  | _ => false
  end.

(* ================================================================== *)
(** * A concrete host for examples *)

Module sim.

(** The files opened and the schemes registered so far. *)
Record State : Type := mkState {
  opened : list string;
  schemes : list string
}.

Definition start : State := mkState [] [].

Definition ENOENT : Z := 2.

(** Opening the empty path fails; any other path opens. *)
#[export] Instance simOS : OS :=
  {| World := State;
     sys_open := fun name _ _ w =>
       if String.eqb name "" then (w, inr ENOENT)
       else (mkState (name :: opened w) (schemes w),
             inl (3 + Z.of_nat (length (opened w)))%Z) |}.

#[export] Instance simLibraries : Libraries :=
  {| Writer_WriteCloser :=
       {| Write := fun _ b w => (w, (Z.of_nat (length b), None));
          Close := fun _ w => (w, None) |};
     Logger := zap.Config unit;
     Option_ := unit;
     Fields := unit;
     RegisterSink := fun _ _ scheme _ w =>
       if existsb (String.eqb scheme) (schemes w)
       then (w, Some (errorString "sink factory already registered"))
       else (mkState (opened w) (scheme :: schemes w), None);
     Build := fun c _ w => (w, Ok c);
     uuid_NewString := fun w =>
       (w, "123e4567-e89b-42d3-a456-426614174000") |}.

(** A logs configuration with an output path that no enabled policy
    accepts. *)
Definition sampleLogs (rotation : option configrotate.Config)
    : @telemetry.LogsConfig simOS simLibraries :=
  @telemetry.mkLogsConfig simOS simLibraries 0 false "json" false false None
    ["file://me@host:80/app.log?x#y"] ["stderr"] tt rotation.

End sim.

(* ================================================================== *)
(** * Further vocabulary *)

(** Unreserved bytes: letters, digits, [-], [_], [.], [~]. *)
Definition unreservedByte (c : byte) : bool :=
  isLower c || isUpper c || isDigit c || oneOf c "-_.~".

(** Bytes that do not end the part of a URL before its query: no
    control byte, no [#], no [?]. *)
Definition hierByte (c : byte) : bool :=
  negb ((code c <? code " ")%N || (code c =? 127)%N || oneOf c "#?").

(** What the resolver returns once it has read the path [p]. *)
Definition sinkFor `{OS} (cfg : configrotate.Config) (p : string)
    : IO (telemetry.nopSyncSink Writer) :=
  do! writer := configrotate.NewWriter cfg p in
  ret (telemetry.mkNopSyncSink writer).

(** The zap configuration that [newLogger] builds for the output paths
    [out] and the error output paths [errOut]. *)
Definition frontendConfig `{Libraries} (cfg : telemetry.LogsConfig)
    (out errOut : list string) : zap.Config Fields :=
  zap.mkConfig (telemetry.Level cfg) (telemetry.Development cfg)
    (telemetry.DisableCaller cfg)
    (telemetry.DisableStacktrace cfg)
    (telemetry.toSamplingConfig (telemetry.Sampling cfg))
    (telemetry.Encoding cfg)
    {| zap.EncodeTime :=
         if String.eqb (telemetry.Encoding cfg) "console"
         then zap.ISO8601TimeEncoder else zap.EpochTimeEncoder |}
    out errOut (telemetry.InitialFields cfg).

(** The bytes of the text of a UUID: hexadecimal digits and dashes. *)
Definition uuidByte (c : byte) : bool := url.ishex c || Ascii.eqb c "-".

(* ================================================================== *)
(** * Facts about strings *)

Import configrotate telemetry.

(** Case analysis on the eight bits of a byte. *)
Ltac bytecases c := destruct c as [[|] [|] [|] [|] [|] [|] [|] [|]].



Lemma allBytes_app (P : byte -> bool) (a b : string) :
  allBytes P (a ++ b) = allBytes P a && allBytes P b.
Proof.
  induction a as [| c a IH]; simpl; [reflexivity |].
  rewrite IH. now rewrite andb_assoc.
Qed.

Lemma allBytes_impl (P Q : byte -> bool) (s : string) :
  (forall c, P c = true -> Q c = true) ->
  allBytes P s = true -> allBytes Q s = true.
Proof.
  intros HPQ. induction s as [| c s IH]; simpl; [reflexivity |].
  intros [Hc Hs]%andb_prop. rewrite (HPQ c Hc), (IH Hs). reflexivity.
Qed.

Lemma allBytes_upto (P : byte -> bool) (n : nat) (s : string) :
  allBytes P s = true -> allBytes P (upto n s) = true.
Proof.
  revert s. induction n as [| n IH]; intros [| c s]; simpl; try reflexivity.
  intros [Hc Hs]%andb_prop. now rewrite Hc, (IH s Hs).
Qed.

Lemma allBytes_from (P : byte -> bool) (n : nat) (s : string) :
  allBytes P s = true -> allBytes P (from n s) = true.
Proof.
  revert s. induction n as [| n IH]; intros [| c s]; simpl; try easy.
  intros [Hc Hs]%andb_prop. now apply IH.
Qed.

Lemma upto_app (a b : string) : upto (len a) (a ++ b) = a.
Proof. induction a as [| c a IH]; simpl; [now destruct b | now rewrite IH]. Qed.

Lemma from_app (a b : string) : from (len a) (a ++ b) = b.
Proof. induction a as [| c a IH]; simpl; [reflexivity | exact IH]. Qed.

Lemma append_assoc (a b c : string) : (a ++ b) ++ c = a ++ b ++ c.
Proof.
  induction a as [| x a IH]; [reflexivity |].
  change (String x ((a ++ b) ++ c) = String x (a ++ b ++ c)).
  now rewrite IH.
Qed.

Lemma len_app (a b : string) : len (a ++ b) = len a + len b.
Proof. induction a as [| c a IH]; simpl; [reflexivity | now rewrite IH]. Qed.


Lemma Index_absent (d : byte) (s : string) :
  absent d s = true -> strings.Index s (String d "") = None.
Proof.
  unfold absent. induction s as [| c s IH]; simpl; [reflexivity |].
  intros [Hc Hs]%andb_prop. rewrite (IH Hs).
  destruct (ascii_dec d c) as [-> |]; [| reflexivity].
  now rewrite Ascii.eqb_refl in Hc.
Qed.

Lemma Cut_absent (d : byte) (s : string) :
  absent d s = true -> strings.Cut s (String d "") = (s, "", false).
Proof. intros Hs. unfold strings.Cut. now rewrite (Index_absent d s Hs). Qed.

Lemma Contains_absent (d : byte) (s : string) :
  absent d s = true -> strings.Contains s (String d "") = false.
Proof. intros Hs. unfold strings.Contains. now rewrite (Index_absent d s Hs). Qed.

Lemma HasSuffix_absent (d : byte) (s : string) :
  absent d s = true -> strings.HasSuffix s (String d "") = false.
Proof.
  intros Hs. unfold strings.HasSuffix.
  destruct (from (len s - len (String d "")) s =? String d "")%string eqn:He;
    [| now rewrite andb_false_r].
  apply String.eqb_eq in He.
  pose proof (allBytes_from _ (len s - len (String d "")) s Hs) as Hf.
  rewrite He in Hf. simpl in Hf. now rewrite Ascii.eqb_refl in Hf.
Qed.


Lemma HasSuffix_cons (a d : byte) (s : string) :
  s <> "" ->
  strings.HasSuffix (String a s) (String d "") =
  strings.HasSuffix s (String d "").
Proof.
  intros Hs. destruct s as [| b s]; [congruence |].
  unfold strings.HasSuffix, len. cbn [String.length Nat.leb Nat.sub andb].
  now rewrite !Nat.sub_0_r.
Qed.

(* ================================================================== *)
(** * Facts about [net/url] *)

Lemma plain_absent (d : byte) (p : string) :
  oneOf d "#?%:" = true ->
  allBytes (fun c => negb (specialByte c)) p = true ->
  absent d p = true.
Proof.
  intros Hd. apply allBytes_impl. intros c Hc.
  destruct (Ascii.eqb c d) eqn:He; [| reflexivity].
  apply Ascii.eqb_eq in He. subst c.
  unfold specialByte in Hc. rewrite Hd, orb_true_r in Hc. discriminate.
Qed.

Lemma plain_no_control (p : string) :
  allBytes (fun c => negb (specialByte c)) p = true ->
  url.stringContainsCTLByte p = false.
Proof.
  induction p as [| c p IH]; cbn [allBytes url.stringContainsCTLByte];
    [reflexivity |].
  intros [Hc Hp]%andb_prop. unfold specialByte in Hc.
  apply negb_true_iff, orb_false_elim in Hc. destruct Hc as [Hc _].
  rewrite Hc. now apply IH.
Qed.

Lemma getSchemeFrom_no_colon (rawURL : string) (i : nat) (s : string) :
  absent ":" s = true ->
  url.getSchemeFrom rawURL i s = Ok ("", rawURL).
Proof.
  unfold absent. revert i.
  induction s as [| c s IH]; intros i; cbn [allBytes url.getSchemeFrom];
    [reflexivity |].
  intros [Hc Hs]%andb_prop. apply negb_true_iff in Hc. rewrite Hc.
  destruct (isLower c || isUpper c); [now apply IH |].
  destruct (isDigit c || oneOf c "+-."); [| reflexivity].
  destruct (i =? 0)%nat; [reflexivity | now apply IH].
Qed.

Lemma unescapeScan_path_no_percent (s : string) (n : nat) :
  absent "%" s = true ->
  url.unescapeScan s url.encodePath n false = Ok (n, false).
Proof.
  unfold absent. revert n. induction s as [| c s IH]; intros n; simpl;
    [reflexivity |].
  intros [Hc Hs]%andb_prop. apply negb_true_iff in Hc. rewrite Hc.
  destruct (Ascii.eqb c "+"); now apply IH.
Qed.

Lemma unescape_path_no_percent (s : string) :
  absent "%" s = true -> url.unescape s url.encodePath = Ok s.
Proof.
  intros Hs. unfold url.unescape.
  now rewrite (unescapeScan_path_no_percent s 0 Hs).
Qed.

(** The parse of a bare path that is not a network path: only [Path]
    (and its encoding hint) is set. *)
Lemma parse_barePath (p : string) :
  allBytes (fun c => negb (specialByte c)) p = true ->
  networkPath p = false ->
  exists raw,
    url.Parse p = Ok (url.mkURL "" "" None "" p raw false false "" "" "").
Proof.
  intros Hplain Hnet.
  pose proof (plain_absent "#"%char p eq_refl Hplain) as Hhash.
  pose proof (plain_absent "?"%char p eq_refl Hplain) as Hquest.
  pose proof (plain_absent "%"%char p eq_refl Hplain) as Hpct.
  pose proof (plain_absent ":"%char p eq_refl Hplain) as Hcolon.
  unfold url.Parse. rewrite (Cut_absent "#"%char p Hhash).
  unfold url.parse. rewrite (plain_no_control p Hplain).
  rewrite andb_false_r.
  destruct (p =? "*")%string eqn:Hstar.
  { apply String.eqb_eq in Hstar. subst p. eexists. reflexivity. }
  unfold url.getScheme. rewrite (getSchemeFrom_no_colon p 0 p Hcolon).
  cbn [bind]. rewrite (HasSuffix_absent "?"%char p Hquest). cbn [andb].
  rewrite (Cut_absent "?"%char p Hquest).
  cbn [strings.ToLower url.withScheme url.withRawQuery url.Scheme url.newURL
       String.eqb negb andb orb].
  rewrite !andb_false_r. cbn [orb negb andb].
  assert (Hseg : strings.Contains (strings.Cut p "/").1.1 ":" = false).
  { apply Contains_absent. unfold strings.Cut.
    destruct (strings.Index p "/"); simpl; [| exact Hcolon].
    now apply allBytes_upto. }
  rewrite Hseg, andb_false_r.
  unfold networkPath in Hnet.
  replace (negb (strings.HasPrefix p "///") && strings.HasPrefix p "//")
    with false by (now rewrite andb_comm).
  cbn [bind]. unfold url.setPath.
  rewrite (unescape_path_no_percent p Hpct). cbn [bind].
  destruct (p =? url.escape p url.encodePath)%string; eexists; reflexivity.
Qed.


Lemma shouldEscape_space (mode : url.encoding) :
  url.shouldEscape " " mode = true.
Proof. destruct mode; reflexivity. Qed.

Lemma unescaped_query_byte (c : byte) :
  url.shouldEscape c url.encodeQueryComponent = false ->
  Ascii.eqb c "%" = false /\ Ascii.eqb c "+" = false
  /\ Ascii.eqb c " " = false /\ escapedByte c = true.
Proof. bytecases c; vm_compute; intros; repeat split; congruence. Qed.

Lemma hexdigit_pair (c : byte) :
  let hi := url.hexdigit (N.shiftr (code c) 4) in
  let lo := url.hexdigit (N.land (code c) 15) in
  url.ishex hi = true /\ url.ishex lo = true
  /\ url.unhex2 hi lo = c
  /\ escapedByte hi = true /\ escapedByte lo = true.
Proof. bytecases c; vm_compute; repeat split; reflexivity. Qed.

Lemma escapedByte_not (c d : byte) :
  oneOf d "#?&;=:/*" = true ->
  escapedByte c = true -> negb (Ascii.eqb c d) = true.
Proof.
  intros Hd Hc. destruct (Ascii.eqb c d) eqn:He; [| reflexivity].
  apply Ascii.eqb_eq in He. subst d. revert Hd Hc.
  bytecases c; vm_compute; congruence.
Qed.

(** With no byte to write in hexadecimal, the last loop of [escape]
    turns spaces into plus signs, and with no space either it copies. *)
Lemma escapeBytes_no_hex (s : string) (mode : url.encoding) (spaceCount : nat) :
  url.escapeCounts s mode = (spaceCount, 0) ->
  url.escapeBytes s mode = url.spacesToPlus s
  /\ (spaceCount = 0 -> url.escapeBytes s mode = s).
Proof.
  revert spaceCount. induction s as [| c s IH]; intros spaceCount;
    cbn [url.escapeCounts url.escapeBytes url.spacesToPlus]; [easy |].
  destruct (url.escapeCounts s mode) as [sc hc].
  destruct (url.shouldEscape c mode) eqn:Hesc.
  - destruct (Ascii.eqb c " " && url.isQueryComponent mode) eqn:Hsp.
    + intros [= <- ->]. destruct (IH sc eq_refl) as [-> _].
      apply andb_prop in Hsp. destruct Hsp as [-> _]. split; [reflexivity | lia].
    + intros [=].
  - intros [= -> ->]. destruct (IH spaceCount eq_refl) as [IH1 IH2].
    destruct (Ascii.eqb c " ") eqn:Hsp.
    + apply Ascii.eqb_eq in Hsp. subst c.
      now rewrite shouldEscape_space in Hesc.
    + cbn [andb]. rewrite IH1. split; [reflexivity |].
      intros Hz. rewrite <- IH1. now rewrite (IH2 Hz).
Qed.

(** The three exits of [escape] agree with its last loop. *)
Lemma escape_escapeBytes (s : string) (mode : url.encoding) :
  url.escape s mode = url.escapeBytes s mode.
Proof.
  unfold url.escape.
  destruct (url.escapeCounts s mode) as [spaceCount hexCount] eqn:Hc.
  destruct hexCount as [| hexCount].
  - destruct (escapeBytes_no_hex s mode spaceCount Hc) as [H1 H2].
    destruct spaceCount; cbn [Nat.eqb andb]; [now rewrite H2 | now rewrite H1].
  - cbn [Nat.eqb]. now rewrite andb_false_r.
Qed.

Lemma escapeBytes_query_bytes (s : string) :
  allBytes escapedByte (url.escapeBytes s url.encodeQueryComponent) = true.
Proof.
  induction s as [| c s IH]; cbn [url.escapeBytes allBytes]; [reflexivity |].
  destruct (Ascii.eqb c " " && url.isQueryComponent url.encodeQueryComponent).
  - cbn [allBytes]. now rewrite IH.
  - destruct (url.shouldEscape c url.encodeQueryComponent) eqn:Hesc.
    + destruct (hexdigit_pair c) as (_ & _ & _ & Hhi & Hlo).
      cbn [allBytes]. cbn zeta in Hhi, Hlo. now rewrite Hhi, Hlo, IH.
    + destruct (unescaped_query_byte c Hesc) as (_ & _ & _ & Hc).
      cbn [allBytes]. now rewrite Hc, IH.
Qed.

(** The first loop of [unescape] accepts what [escape] wrote, and counts
    its escapes and plus signs. *)
Lemma unescapeScan_escapeBytes (s : string) (n : nat) (hasPlus : bool) :
  url.unescapeScan (url.escapeBytes s url.encodeQueryComponent)
    url.encodeQueryComponent n hasPlus =
  Ok (n + (url.escapeCounts s url.encodeQueryComponent).2,
      hasPlus || (0 <? (url.escapeCounts s url.encodeQueryComponent).1)%nat).
Proof.
  revert n hasPlus. induction s as [| c s IH]; intros n hasPlus;
    cbn [url.escapeBytes url.escapeCounts].
  - cbn. now rewrite Nat.add_0_r, orb_false_r.
  - destruct (url.escapeCounts s url.encodeQueryComponent) as [sc hc] eqn:Hcnt.
    cbn [fst snd] in IH.
    destruct (Ascii.eqb c " ") eqn:Hsp.
    + apply Ascii.eqb_eq in Hsp. subst c. cbn. rewrite IH.
      now rewrite orb_true_r.
    + cbn [andb]. destruct (url.shouldEscape c url.encodeQueryComponent) eqn:Hesc.
      * destruct (hexdigit_pair c) as (Hhi & Hlo & _). cbn zeta in Hhi, Hlo.
        cbn [url.unescapeScan]. change (Ascii.eqb "%" "%") with true.
        cbv iota. rewrite Hhi, Hlo. cbn [negb orb andb]. rewrite IH.
        cbn [fst snd]. f_equal. f_equal. lia.
      * destruct (unescaped_query_byte c Hesc) as (Hp & Hq & _).
        cbn [url.unescapeScan]. rewrite Hp, Hq.
        cbn [url.isHostMode andb]. rewrite IH. reflexivity.
Qed.

Lemma unescapeBytes_escapeBytes (s : string) :
  url.unescapeBytes (url.escapeBytes s url.encodeQueryComponent)
    url.encodeQueryComponent = s.
Proof.
  induction s as [| c s IH]; cbn [url.escapeBytes]; [reflexivity |].
  destruct (Ascii.eqb c " ") eqn:Hsp.
  - apply Ascii.eqb_eq in Hsp. subst c. cbn. now rewrite IH.
  - cbn [andb]. destruct (url.shouldEscape c url.encodeQueryComponent) eqn:Hesc.
    + destruct (hexdigit_pair c) as (_ & _ & Hun & _). cbn zeta in Hun.
      cbn [url.unescapeBytes]. change (Ascii.eqb "%" "%") with true.
      cbv iota. now rewrite Hun, IH.
    + destruct (unescaped_query_byte c Hesc) as (Hp & Hq & _).
      cbn [url.unescapeBytes]. now rewrite Hp, Hq, IH.
Qed.

(** Round trip of the query encoding. *)
Lemma QueryUnescape_QueryEscape (s : string) :
  url.QueryUnescape (url.QueryEscape s) = Ok s.
Proof.
  unfold url.QueryUnescape, url.QueryEscape, url.unescape.
  rewrite escape_escapeBytes, unescapeScan_escapeBytes. cbn [bind].
  destruct (url.escapeCounts s url.encodeQueryComponent) as [sc hc] eqn:Hcnt.
  cbn [fst snd Nat.add orb].
  destruct hc as [| hc]; [| now rewrite unescapeBytes_escapeBytes].
  destruct sc as [| sc]; [| now rewrite unescapeBytes_escapeBytes].
  cbn. destruct (escapeBytes_no_hex s _ 0 Hcnt) as [_ Hid].
  now rewrite (Hid eq_refl).
Qed.

Lemma schemeByte_facts (c : byte) :
  schemeByte c = true ->
  Ascii.eqb c "#" = false /\ Ascii.eqb c ":" = false
  /\ ((code c <? code " ")%N || (code c =? 127)%N) = false.
Proof. bytecases c; vm_compute; intros; repeat split; congruence. Qed.

Lemma letter_schemeByte (c : byte) :
  isLower c || isUpper c = true -> schemeByte c = true.
Proof. unfold schemeByte. intros ->. reflexivity. Qed.

(** After its first byte, [getScheme] runs over the scheme to the
    colon. *)
Lemma getSchemeFrom_scheme (rawURL : string) (i : nat) (s rest : string) :
  allBytes schemeByte s = true ->
  url.getSchemeFrom rawURL (S i) (s ++ ":" ++ rest) =
    Ok (upto (S i + len s) rawURL, from (S i + len s + 1) rawURL).
Proof.
  revert i. induction s as [| c s IH]; intros i.
  - intros _. cbn. now rewrite Nat.add_0_r.
  - cbn [allBytes]. intros [Hc Hs]%andb_prop.
    change ((String c s) ++ ":" ++ rest) with (String c (s ++ ":" ++ rest)).
    cbn [url.getSchemeFrom].
    unfold schemeByte in Hc.
    destruct (isLower c || isUpper c) eqn:Hl.
    + rewrite (IH (S i) Hs). unfold len. cbn [String.length]. f_equal. f_equal; f_equal; lia.
    + cbn [orb] in Hc. rewrite Hc. cbn [Nat.eqb].
      rewrite (IH (S i) Hs). unfold len. cbn [String.length]. f_equal. f_equal; f_equal; lia.
Qed.

Lemma getScheme_scheme (ns rest : string) :
  validScheme ns = true ->
  url.getScheme (ns ++ ":" ++ rest) = Ok (ns, rest).
Proof.
  destruct ns as [| c s]; [discriminate |].
  cbn [validScheme]. intros [Hc Hs]%andb_prop.
  unfold url.getScheme.
  change ((String c s) ++ ":" ++ rest) with (String c (s ++ ":" ++ rest)).
  cbn [url.getSchemeFrom]. rewrite Hc.
  rewrite (getSchemeFrom_scheme _ 0 s rest Hs).
  change (String c (s ++ ":" ++ rest)) with ((String c s) ++ (":" ++ rest)).
  change (1 + len s) with (len (String c s)).
  rewrite upto_app.
  replace (len (String c s) + 1) with (len (String c s ++ ":")).
  2:{ rewrite len_app. reflexivity. }
  change (String c s ++ ":" ++ rest) with (String c s ++ (":" ++ rest)).
  replace (String c s ++ (":" ++ rest)) with ((String c s ++ ":") ++ rest).
  2:{ apply append_assoc. }
  now rewrite from_app.
Qed.

Lemma validScheme_bytes (ns : string) :
  validScheme ns = true -> allBytes schemeByte ns = true.
Proof.
  destruct ns as [| c s]; [discriminate |]. cbn [validScheme allBytes].
  intros [Hc Hs]%andb_prop. now rewrite (letter_schemeByte c Hc), Hs.
Qed.

(** The rewritten destination parses into the namespace as scheme and
    [path=<escaped path>] as raw query. *)
Lemma Parse_rewritten (ns p : string) :
  validScheme ns = true ->
  exists u,
    url.Parse (rewritten ns p) = Ok u
    /\ url.RawQuery u = "path=" ++ url.QueryEscape p.
Proof.
  intros Hns. unfold rewritten, url.QueryEscape.
  rewrite escape_escapeBytes.
  set (esc := url.escapeBytes p url.encodeQueryComponent).
  pose proof (escapeBytes_query_bytes p) as Hesc. fold esc in Hesc.
  pose proof (validScheme_bytes ns Hns) as Hbytes.
  set (tail := "path=" ++ esc).
  assert (Htail : allBytes (fun c => escapedByte c || Ascii.eqb c "=") tail = true).
  { unfold tail. rewrite allBytes_app. apply andb_true_intro. split.
    - reflexivity.
    - eapply allBytes_impl; [| exact Hesc]. intros c ->. reflexivity. }
  assert (Hhash : absent "#" (ns ++ ":?" ++ tail) = true).
  { unfold absent. rewrite !allBytes_app. apply andb_true_intro; split; [| apply andb_true_intro; split].
    - eapply allBytes_impl; [| exact Hbytes]. intros c Hc.
      destruct (schemeByte_facts c Hc) as (-> & _). reflexivity.
    - reflexivity.
    - eapply allBytes_impl; [| exact Htail]. intros c Hc.
      revert Hc. bytecases c; vm_compute; congruence. }
  assert (Hctl : url.stringContainsCTLByte (ns ++ ":?" ++ tail) = false).
  { assert (Hall : allBytes (fun c => negb ((code c <? code " ")%N
                                            || (code c =? 127)%N))
                     (ns ++ ":?" ++ tail) = true).
    { rewrite !allBytes_app. apply andb_true_intro; split; [| apply andb_true_intro; split].
      - eapply allBytes_impl; [| exact Hbytes]. intros c Hc.
        destruct (schemeByte_facts c Hc) as (_ & _ & ->). reflexivity.
      - reflexivity.
      - eapply allBytes_impl; [| exact Htail]. intros c Hc.
        revert Hc. bytecases c; vm_compute; congruence. }
    clear -Hall. induction (ns ++ ":?" ++ tail) as [| c s IH];
      cbn [allBytes url.stringContainsCTLByte] in *; [reflexivity |].
    apply andb_prop in Hall. destruct Hall as [Hc Hs].
    apply negb_true_iff in Hc. rewrite Hc. now apply IH. }
  assert (Hquest : absent "?" tail = true).
  { eapply allBytes_impl; [| exact Htail]. intros c Hc.
    revert Hc. bytecases c; vm_compute; congruence. }
  change (ns ++ ":?path=" ++ esc) with (ns ++ ":?" ++ tail).
  unfold url.Parse. rewrite (Cut_absent "#" _ Hhash).
  unfold url.parse. rewrite Hctl.
  assert (Hne : ((ns ++ ":?" ++ tail) =? "")%string = false).
  { destruct ns; [discriminate | reflexivity]. }
  rewrite Hne. cbn [andb].
  assert (Hstar : ((ns ++ ":?" ++ tail) =? "*")%string = false).
  { apply String.eqb_neq. intros Heq. apply (f_equal len) in Heq.
    rewrite !len_app in Heq. cbn in Heq. lia. }
  rewrite Hstar.
  change (ns ++ ":?" ++ tail) with (ns ++ ":" ++ ("?" ++ tail)).
  rewrite (getScheme_scheme ns _ Hns). cbn [bind].
  assert (Hsuf : strings.HasSuffix ("?" ++ tail) "?" = false).
  { change ("?" ++ tail) with (String "?" tail).
    rewrite HasSuffix_cons; [now apply HasSuffix_absent | discriminate]. }
  rewrite Hsuf. cbn [andb].
  assert (Hcut : strings.Cut ("?" ++ tail) "?" = ("", tail, true)).
  { reflexivity. }
  rewrite Hcut.
  assert (Hlow : (strings.ToLower ns =? "")%string = false).
  { destruct ns; [discriminate | reflexivity]. }
  cbn [url.withScheme url.withRawQuery url.Scheme url.newURL strings.HasPrefix
       String.prefix negb andb].
  rewrite Hlow. cbn [negb].
  eexists. split; [reflexivity |]. reflexivity.
Qed.

(** The resolver reads back the path from the raw query
    [path=<escaped path>]. *)
Lemma Get_path_of_query (u : url.URL) (p : string) :
  url.RawQuery u = "path=" ++ url.QueryEscape p ->
  url.Get (url.Query u) "path" = p.
Proof.
  intros Hraw. unfold url.Query, url.ParseQuery. rewrite Hraw.
  pose proof (QueryUnescape_QueryEscape p) as Hround.
  assert (Hesc : allBytes escapedByte (url.QueryEscape p) = true).
  { unfold url.QueryEscape. rewrite escape_escapeBytes.
    apply escapeBytes_query_bytes. }
  set (esc := url.QueryEscape p) in *.
  assert (Hkey : forall d, oneOf d "&;" = true ->
                           absent d ("path=" ++ esc) = true).
  { intros d Hd. unfold absent. rewrite allBytes_app.
    apply andb_true_intro. split.
    - revert Hd. bytecases d; vm_compute; congruence.
    - eapply allBytes_impl; [| exact Hesc]. intros c Hc.
      apply escapedByte_not; [| exact Hc].
      revert Hd. bytecases d; vm_compute; congruence. }
  change ("path=" ++ esc) with (String "p" ("ath=" ++ esc)) in *.
  rewrite url.parseQuery_equation_2. cbv zeta.
  unfold url.afterAmp.
  rewrite (Cut_absent "&" _ (Hkey "&"%char eq_refl)). cbn [fst snd].
  rewrite url.parseQuery_equation_1. cbn [fst].
  unfold url.parseQueryKey.
  rewrite (Contains_absent ";" _ (Hkey ";"%char eq_refl)).
  change ((String "p" ("ath=" ++ esc) =? "")%string) with false. cbv iota.
  assert (Hcut : forall e, strings.Cut (String "p" ("ath=" ++ e)) "="
                           = ("path", e, true)).
  { intros [| ? ?]; reflexivity. }
  rewrite Hcut.
  cbv iota beta. change (url.QueryUnescape "path") with (@Ok string "path").
  cbv iota beta. rewrite Hround. cbv iota beta.
  unfold url.Get. cbn [fst]. rewrite lookup_insert_eq, lookup_empty.
  reflexivity.
Qed.

Section BarePath.
Context `{Platform}.

Lemma rotationURL_barePath (ns p : string) :
  barePath p ->
  networkPath p = false ->
  rotationURL ns p = Ok (rewritten ns p).
Proof.
  intros (Hplain & Hout & Herr) Hnet. unfold rotationURL.
  destruct (windowsAbs p); [reflexivity |].
  destruct (parse_barePath p Hplain Hnet) as [raw ->]. cbn [bind].
  apply String.eqb_neq in Hout, Herr.
  unfold fileBacked. cbn [url.Scheme url.Path String.eqb orb andb].
  rewrite Hout, Herr. reflexivity.
Qed.

End BarePath.

(* ================================================================== *)
(** * The writer factory *)

(** C5.  With an enabled policy, [NewWriter] returns at once, without
    error and without any effect on the world, a rotating writer whose
    file name is the given path and whose size, age, backup and
    local-time settings are the policy's values unchanged; so the policy
    [{true, 1524, 145, 155, true}] with the path [test.log] gives a
    writer with file name [test.log], size 1524, age 145, 155 backups,
    local time. *)
Theorem NewWriter_enabled_passes_policy `{OS}
    (cfg : configrotate.Config) (path : string) (w : World) :
  configrotate.Enabled cfg = true ->
  NewWriter cfg path w =
    (w, Ok (RotatingWriter
              (lumberjack.mkLogger path (MaxMegabytes cfg) (MaxDays cfg)
                 (MaxBackups cfg) (LocalTime cfg) false)))
  /\ NewWriter (configrotate.mkConfig true 1524 145 155 true) "test.log" w =
       (w, Ok (RotatingWriter
                 (lumberjack.mkLogger "test.log" 1524 145 155 true false))).
Proof.
  intros Hen. split.
  - unfold NewWriter. rewrite Hen. reflexivity.
  - reflexivity.
Qed.

Lemma NewWriter_enabled_passes_policy_witness :
  configrotate.Enabled (configrotate.mkConfig true 0 0 7 false) = true
  /\ @NewWriter sim.simOS
       (configrotate.mkConfig true 0 0 7 false) "/var/log/otel.log"
       sim.start =
     (sim.start,
      Ok (RotatingWriter
            (lumberjack.mkLogger "/var/log/otel.log" 0 0 7 false false))).
Proof.
  split; [reflexivity |].
  apply (@NewWriter_enabled_passes_policy sim.simOS
           (configrotate.mkConfig true 0 0 7 false) "/var/log/otel.log"
           sim.start).
  reflexivity.
Defined.

Lemma appendFlags_meaning :
  Z.land appendFlags os.O_ACCMODE = os.O_WRONLY
  /\ Z.land appendFlags os.O_APPEND = os.O_APPEND
  /\ Z.land appendFlags os.O_CREATE = os.O_CREATE.
Proof. repeat split; reflexivity. Qed.

(** Bits of a Unix permission word, from the lowest: others' execute,
    write, read; the group's; the owner's. *)
Lemma perm_0644_bits :
  map (Z.testbit 420) [8; 7; 6; 5; 4; 3; 2; 1; 0]%Z =
  [true; true; false; true; false; false; true; false; false].
Proof. reflexivity. Qed.

(** C6.  With a disabled policy, [NewWriter] makes one [open] call, on
    exactly the requested path, write-only, in append mode, creating the
    file, with mode 0644 (read for everybody, write for the owner
    alone); it returns the opened file, whose name is the path, when the
    call succeeds, and fails, with the call's error as a path error,
    exactly when the call fails. *)
Theorem NewWriter_disabled_opens_path `{OS}
    (cfg : configrotate.Config) (path : string) (w : World) :
  configrotate.Enabled cfg = false ->
  NewWriter cfg path w =
    match sys_open path appendFlags 420 w with
    | (w', inl fd) => (w', Ok (FileWriter (os.mkFile fd path true)))
    | (w', inr errno) => (w', Err (PathError "open" path errno))
    end
  /\ ((exists e, (NewWriter cfg path w).2 = Err e) <->
      (exists errno, (sys_open path appendFlags 420 w).2 = inr errno))
  /\ Z.land appendFlags os.O_ACCMODE = os.O_WRONLY
  /\ Z.testbit appendFlags 10 = true
  /\ Z.testbit appendFlags 6 = true
  /\ Z.testbit 420 2 = true
  /\ Z.testbit 420 1 = false
  /\ Z.testbit 420 4 = false.
Proof.
  intros Hen.
  assert (Heq : NewWriter cfg path w =
    match sys_open path appendFlags 420 w with
    | (w', inl fd) => (w', Ok (FileWriter (os.mkFile fd path true)))
    | (w', inr errno) => (w', Err (PathError "open" path errno))
    end).
  { unfold NewWriter. rewrite Hen. simpl.
    unfold iobind, os.OpenFile, ret. fold appendFlags.
    destruct (sys_open path appendFlags 420 w) as [w' [fd | errno]];
      reflexivity. }
  split; [exact Heq |].
  split.
  - rewrite Heq.
    destruct (sys_open path appendFlags 420 w) as [w' [fd | errno]]; simpl.
    + split; intros [x Hx]; discriminate.
    + split; intros _; eauto.
  - repeat split; reflexivity.
Qed.

Lemma NewWriter_disabled_opens_path_witness :
  configrotate.Enabled (configrotate.mkConfig false 0 0 0 false) = false
  /\ @NewWriter sim.simOS
       (configrotate.mkConfig false 0 0 0 false) "/tmp/test.log"
       sim.start =
     (sim.mkState ["/tmp/test.log"] [],
      Ok (FileWriter (os.mkFile 3 "/tmp/test.log" true))).
Proof.
  split; [reflexivity |].
  destruct (@NewWriter_disabled_opens_path sim.simOS
              (configrotate.mkConfig false 0 0 0 false) "/tmp/test.log"
              sim.start eq_refl) as [Heq _].
  rewrite Heq. reflexivity.
Defined.

(* ================================================================== *)
(** * The sink adapter *)

(** C9.  For every writer [w] that has [Write] and [Close], the sink
    that wraps it writes and closes by calling [w]'s methods, with their
    results and effects unchanged, and its [Sync] returns no error and
    leaves the world as it is. *)
Theorem nopSyncSink_delegates `{OS} {W : Type} `{!WriteCloser W}
    (w : W) (b : list byte) (st : World) :
  @Write _ (nopSyncSink W) Sink_WriteCloser (mkNopSyncSink w) b st
    = Write w b st
  /\ @Close _ (nopSyncSink W) Sink_WriteCloser (mkNopSyncSink w) st
    = Close w st
  /\ Sync (mkNopSyncSink w) st = (st, None).
Proof. repeat split. Qed.

(** The sink the registered resolver hands out wraps the writer of
    [NewWriter], opened on the [path] parameter of the URL. *)
Lemma getRotationSinkFactory_opens `{OS}
    (cfg : configrotate.Config) (u : url.URL) (w : World) :
  getRotationSinkFactory cfg u w =
    match NewWriter cfg (url.Get (url.Query u) "path") w with
    | (w', Ok writer) => (w', Ok (mkNopSyncSink writer))
    | (w', Err e) => (w', Err e)
    end.
Proof.
  unfold getRotationSinkFactory, iobind, ret.
  destruct (NewWriter cfg _ w) as [w' [writer | e]]; reflexivity.
Qed.

(* ================================================================== *)
(** * Rewriting one destination *)

Section OneDestination.
Context `{Platform}.

Lemma rotationURL_parsed (ns p : string) (u : url.URL) :
  windowsAbs p = false ->
  url.Parse p = Ok u ->
  rotationURL ns p =
    if fileBacked u then
      match firstViolation u with
      | Some c => Err (errorfGot (complaint c) u)
      | None => Ok (rewritten ns (url.Path u))
      end
    else Ok p.
Proof.
  intros Hw Hp. unfold rotationURL. rewrite Hw, Hp. simpl.
  destruct (fileBacked u); [| reflexivity].
  unfold firstViolation, checkOrder. simpl.
  destruct (url.isSome (url.User u)); [reflexivity |].
  destruct (negb (url.Fragment u =? "")%string); [reflexivity |].
  destruct (negb (url.RawQuery u =? "")%string); [reflexivity |].
  destruct (negb (url.Port u =? "")%string); [reflexivity |].
  destruct (negb (url.Hostname u =? "")%string
            && negb (url.Hostname u =? "localhost")%string); reflexivity.
Qed.

Lemma rotationURL_error_parsed (ns p : string) (err : error) :
  rotationURL ns p = Err err ->
  windowsAbs p = false.
Proof.
  unfold rotationURL. destruct (windowsAbs p); [discriminate | reflexivity].
Qed.

End OneDestination.

(** Off Windows the first step of the loop never applies. *)
Lemma windowsAbs_off_windows `{Platform} (p : string) :
  GOOS <> "windows" -> windowsAbs p = false.
Proof.
  intros Hos. unfold windowsAbs. apply String.eqb_neq in Hos. now rewrite Hos.
Qed.

Lemma linux_never_windowsAbs (p : string) : @windowsAbs linux p = false.
Proof. reflexivity. Qed.

(** C3, as the code has it.  For a destination that the first step of
    the loop (absolute paths on Windows) does not take, and that parses
    as a URL with an empty or [file] scheme and a path other than the
    two keywords, the result is decided
    by the first violated constraint in the order user-info, fragment,
    raw query, port, hostname (empty or [localhost]): the error names
    that constraint, and with no violation the destination is rewritten.
    So [file://host/var/log/app.log] fails on its hostname and
    [file:///var/log/app.log?x=1] on its query. *)
Theorem file_checks_in_order `{Platform} (ns p : string) (u : url.URL) :
  windowsAbs p = false ->
  url.Parse p = Ok u ->
  fileBacked u = true ->
  rotationURL ns p =
    match firstViolation u with
    | Some c => Err (errorfGot (complaint c) u)
    | None => Ok (rewritten ns (url.Path u))
    end
  /\ (exists v,
        url.Parse "file://host/var/log/app.log" = Ok v
        /\ firstViolation v = Some HostnamePart
        /\ @rotationURL linux ns "file://host/var/log/app.log" =
             Err (errorfGot (complaint HostnamePart) v))
  /\ (exists v,
        url.Parse "file:///var/log/app.log?x=1" = Ok v
        /\ firstViolation v = Some QueryPart
        /\ @rotationURL linux ns "file:///var/log/app.log?x=1" =
             Err (errorfGot (complaint QueryPart) v)).
Proof.
  intros Hw Hp Hf. split.
  - rewrite (rotationURL_parsed ns p u Hw Hp), Hf. reflexivity.
  - split; eexists; (split; [reflexivity |]); split; reflexivity.
Qed.

Lemma file_checks_in_order_witness :
  exists u,
    url.Parse "file://me:pw@host:80/x.log?a=b#top" = Ok u
    /\ @rotationURL linux "rotation-abc" "file://me:pw@host:80/x.log?a=b#top" =
         Err (errorString
                "user and password not allowed with file URLs: got file://me:pw@host:80/x.log?a=b#top").
Proof.
  eexists. split; [reflexivity |].
  destruct (@file_checks_in_order linux "rotation-abc"
              "file://me:pw@host:80/x.log?a=b#top" _
              eq_refl eq_refl eq_refl) as [Heq _].
  rewrite Heq. reflexivity.
Defined.

(** C3 as stated fails on Windows: [//host/share/app.log] parses as a
    URL with an empty scheme and the host [host], but it is an absolute
    (UNC) path there, so it is rewritten and no check is made. *)
Lemma windows_UNC_path_not_checked :
  (exists u,
     url.Parse "//host/share/app.log" = Ok u
     /\ fileBacked u = true
     /\ firstViolation u = Some HostnamePart)
  /\ @rotationURL windows "rotation-abc" "//host/share/app.log" =
       Ok "rotation-abc:?path=%2F%2Fhost%2Fshare%2Fapp.log".
Proof.
  split; [| reflexivity].
  eexists. split; [reflexivity |]. split; reflexivity.
Qed.

(** C4, as the code has it.  A destination that the first step of the
    loop (absolute paths on Windows) does not take, and that is one of
    the keywords [stdout] and [stderr] or parses as a URL whose scheme
    is neither empty nor [file], is appended as it is: no check is
    applied to it. *)
Theorem keyword_or_foreign_scheme_unchanged `{Platform} (ns p : string) :
  windowsAbs p = false ->
  (p = "stdout" \/ p = "stderr" \/
   exists u, url.Parse p = Ok u
             /\ url.Scheme u <> "" /\ url.Scheme u <> "file") ->
  rotationURL ns p = Ok p.
Proof.
  intros Hw [-> | [-> | (u & Hp & Hs & Hf)]].
  - unfold rotationURL. rewrite Hw. reflexivity.
  - unfold rotationURL. rewrite Hw. reflexivity.
  - rewrite (rotationURL_parsed ns p u Hw Hp). unfold fileBacked.
    apply String.eqb_neq in Hs, Hf. rewrite Hs, Hf. reflexivity.
Qed.

Lemma keyword_or_foreign_scheme_unchanged_witness :
  @rotationURL linux "rotation-abc" "https://me:pw@example.com:8443/logs?x=1#top"
    = Ok "https://me:pw@example.com:8443/logs?x=1#top".
Proof.
  apply (@keyword_or_foreign_scheme_unchanged linux).
  - reflexivity.
  - right. right. eexists. split; [reflexivity |].
    split; discriminate.
Defined.

(** C4 as stated fails on Windows: [c:/logs/app.log] parses as a URL
    with the scheme [c], but it is an absolute path there, so it is
    rewritten. *)
Lemma windows_drive_path_rewritten :
  (exists u,
     url.Parse "c:/logs/app.log" = Ok u /\ url.Scheme u = "c")
  /\ @rotationURL windows "rotation-abc" "c:/logs/app.log" =
       Ok "rotation-abc:?path=c%3A%2Flogs%2Fapp.log".
Proof.
  split; [| reflexivity].
  eexists. split; reflexivity.
Qed.

(** C7, as the code has it.  An error of the checks on a file-backed
    destination names the first violated constraint and ends with the
    parsed URL printed back by [URL.String] (the scheme in lower case,
    the path escaped anew), which need not be the string of the input
    list. *)
Theorem validation_error_prints_parsed_URL `{Platform}
    (ns p : string) (u : url.URL) (err : error) :
  url.Parse p = Ok u ->
  rotationURL ns p = Err err ->
  exists c,
    firstViolation u = Some c
    /\ err = errorString (complaint c ++ ": got " ++ url.String_ u).
Proof.
  intros Hp He.
  pose proof (rotationURL_error_parsed ns p err He) as Hw.
  rewrite (rotationURL_parsed ns p u Hw Hp) in He.
  destruct (fileBacked u); [| discriminate].
  destruct (firstViolation u) as [c |]; [| discriminate].
  exists c. split; [reflexivity |]. now inversion He.
Qed.

Lemma validation_error_prints_parsed_URL_witness :
  exists c,
    firstViolation
      (url.mkURL "file" "" None "" "/var/log/app.log" "" false false
         "x=1" "" "") = Some c
    /\ errorString
         "query parameters not allowed with file URLs: got file:///var/log/app.log?x=1"
       = errorString
           (complaint c ++ ": got " ++
            url.String_ (url.mkURL "file" "" None "" "/var/log/app.log" ""
                           false false "x=1" "" "")).
Proof.
  apply (@validation_error_prints_parsed_URL linux "rotation-abc"
           "FILE:///var/log/app.log?x=1"); reflexivity.
Defined.

(** C7 as stated fails: the error for [FILE:///var/log/app.log?x=1]
    holds the URL printed with a lower-case scheme, not the input. *)
Lemma validation_error_not_original_string :
  @rotationURL linux "rotation-abc" "FILE:///var/log/app.log?x=1" =
    Err (errorString
           "query parameters not allowed with file URLs: got file:///var/log/app.log?x=1")
  /\ carries
       (errorString
          "query parameters not allowed with file URLs: got file:///var/log/app.log?x=1")
       "FILE:///var/log/app.log?x=1" = false.
Proof. split; reflexivity. Qed.

(** C8.  On Windows, a destination that [filepath.IsAbs] reports as
    absolute is rewritten from the string itself: it is not parsed as a
    URL and none of the checks is applied, whatever it holds. *)
Theorem windows_absolute_path_not_parsed `{Platform} (ns p : string) :
  GOOS = "windows" ->
  IsAbs p = true ->
  rotationURL ns p = Ok (ns ++ ":?path=" ++ url.QueryEscape p).
Proof.
  intros Hos Habs. unfold rotationURL, windowsAbs.
  rewrite Hos, Habs. reflexivity.
Qed.

Lemma windows_absolute_path_not_parsed_witness :
  @rotationURL windows "rotation-abc" "C:\logs\app.log?x=1#top" =
    Ok "rotation-abc:?path=C%3A%5Clogs%5Capp.log%3Fx%3D1%23top".
Proof.
  apply (@windows_absolute_path_not_parsed windows "rotation-abc"
           "C:\logs\app.log?x=1#top"); reflexivity.
Defined.

(* ================================================================== *)
(** * The round trip of a bare path *)

(** C1, as the code has it.  A bare filesystem path [p] (no special
    byte, not a keyword) that does not start with exactly two slashes is
    rewritten to [ns ++ ":?path=" ++ QueryEscape p]; when the namespace
    [ns] can serve as a URL scheme, the rewritten destination parses as
    a URL whose [path] query parameter, read as the registered resolver
    reads it, is [p] again.  So [stderr; /var/log/app.log] with the
    namespace [rotation-abc] becomes
    [stderr; rotation-abc:?path=%2Fvar%2Flog%2Fapp.log]. *)
Theorem bare_path_round_trip `{Platform} (ns p : string) :
  barePath p ->
  networkPath p = false ->
  setRotatinURL [p] ns = Ok [ns ++ ":?path=" ++ url.QueryEscape p]
  /\ (validScheme ns = true ->
      exists u,
        url.Parse (ns ++ ":?path=" ++ url.QueryEscape p) = Ok u
        /\ url.Get (url.Query u) "path" = p)
  /\ @setRotatinURL linux ["stderr"; "/var/log/app.log"] "rotation-abc" =
       Ok ["stderr"; "rotation-abc:?path=%2Fvar%2Flog%2Fapp.log"].
Proof.
  intros Hbare Hnet. split; [| split].
  - unfold setRotatinURL. cbn [setRotatinURLFrom].
    rewrite (rotationURL_barePath ns p Hbare Hnet). reflexivity.
  - intros Hns. destruct (Parse_rewritten ns p Hns) as (u & Hu & Hraw).
    exists u. split; [exact Hu |]. now apply Get_path_of_query.
  - reflexivity.
Qed.

Lemma bare_path_round_trip_witness :
  @setRotatinURL linux ["logs/my app+1.log"] "rotation-abc" =
    Ok ["rotation-abc:?path=logs%2Fmy+app%2B1.log"]
  /\ exists u,
       url.Parse "rotation-abc:?path=logs%2Fmy+app%2B1.log" = Ok u
       /\ url.Get (url.Query u) "path" = "logs/my app+1.log".
Proof.
  assert (Hbare : barePath "logs/my app+1.log").
  { split; [reflexivity |]. split; discriminate. }
  destruct (@bare_path_round_trip linux "rotation-abc" "logs/my app+1.log"
              Hbare eq_refl) as (Hrew & Hback & _).
  split; [exact Hrew |]. exact (Hback eq_refl).
Defined.

(** A namespace that is not a scheme gives no URL to read back. *)
Example empty_namespace_not_a_URL :
  url.Parse ("" ++ ":?path=" ++ url.QueryEscape "/var/log/app.log") =
    Err (url_Error "parse" ":?path=%2Fvar%2Flog%2Fapp.log"
           (errorString "missing protocol scheme")).
Proof. reflexivity. Qed.

(** C1 as stated fails: a bare path that starts with two slashes is
    read as a URL with a host, and refused. *)
Lemma bare_network_path_refused :
  barePath "//host/app.log"
  /\ @setRotatinURL linux ["//host/app.log"] "rotation-abc" =
       Err (errorString
              "file URLs must leave host empty or use localhost: got //host/app.log").
Proof.
  split; [| reflexivity].
  split; [reflexivity |]. split; discriminate.
Qed.

(* ================================================================== *)
(** * Rewriting a list *)

Section WholeList.
Context `{Platform}.

(** The loop appends to [res] one string per path, in order, up to the
    first path that fails. *)
Lemma setRotatinURLFrom_ok (ns : string) (paths res out : list string) :
  setRotatinURLFrom paths ns res = Ok out ->
  exists rewritten_paths,
    out = (res ++ rewritten_paths)%list
    /\ Forall2 (fun p s => rotationURL ns p = Ok s) paths rewritten_paths.
Proof.
  revert res out. induction paths as [| p paths IH]; intros res out Hrun.
  - simpl in Hrun. inversion Hrun; subst. exists [].
    split; [now rewrite app_nil_r | constructor].
  - simpl in Hrun. destruct (rotationURL ns p) as [s |] eqn:Hp;
      [| discriminate].
    destruct (IH _ _ Hrun) as (tl & -> & Htl).
    exists (s :: tl). split.
    + now rewrite <- app_assoc.
    + now constructor.
Qed.

Lemma setRotatinURLFrom_err (ns : string) (paths res : list string)
    (err : error) :
  setRotatinURLFrom paths ns res = Err err ->
  exists before p after,
    paths = (before ++ p :: after)%list
    /\ Forall (fun q => exists s, rotationURL ns q = Ok s) before
    /\ rotationURL ns p = Err err.
Proof.
  revert res. induction paths as [| p paths IH]; intros res Hrun.
  - discriminate.
  - simpl in Hrun. destruct (rotationURL ns p) as [s |] eqn:Hp.
    + destruct (IH _ Hrun) as (before & q & after & -> & Hb & Hq).
      exists (p :: before), q, after. repeat split; eauto.
    + inversion Hrun; subst. exists [], p, paths. repeat split; eauto.
Qed.

End WholeList.

(** The two outcomes of the loop. *)
Lemma setRotatinURL_cases `{Platform} (paths : list string) (ns : string) :
  (exists out,
      setRotatinURL paths ns = Ok out
      /\ length out = length paths
      /\ forall i p, paths !! i = Some p ->
           exists s, out !! i = Some s /\ rotationURL ns p = Ok s)
  \/
  (exists before p after err,
      setRotatinURL paths ns = Err err
      /\ paths = (before ++ p :: after)%list
      /\ Forall (fun q => exists s, rotationURL ns q = Ok s) before
      /\ rotationURL ns p = Err err).
Proof.
  unfold setRotatinURL.
  destruct (setRotatinURLFrom paths ns []) as [out | err] eqn:Hrun.
  - left. destruct (setRotatinURLFrom_ok _ _ _ _ Hrun) as (out' & -> & Hall).
    simpl. exists out'. split; [reflexivity |]. split.
    + symmetry. eapply Forall2_length; eauto.
    + intros i p Hi.
      destruct (Forall2_lookup_l _ _ _ _ _ Hall Hi) as (s & Hs & Hps).
      eauto.
  - right. destruct (setRotatinURLFrom_err _ _ _ _ Hrun)
      as (before & p & after & Hsplit & Hb & Hp).
    exists before, p, after, err. auto.
Qed.

(** C2.  Rewriting a list either succeeds, and then the result has the
    length of the input and its i-th string is the rewriting of the i-th
    input, or it fails, and then it returns the error of the first input
    that cannot be rewritten and no list: the strings already rewritten
    are not returned.  It fails exactly when some input cannot be
    rewritten. *)
Theorem setRotatinURL_all_or_nothing `{Platform}
    (paths : list string) (ns : string) :
  ((exists out,
       setRotatinURL paths ns = Ok out
       /\ length out = length paths
       /\ forall i p, paths !! i = Some p ->
            exists s, out !! i = Some s /\ rotationURL ns p = Ok s)
   \/
   (exists before p after err,
       setRotatinURL paths ns = Err err
       /\ paths = (before ++ p :: after)%list
       /\ Forall (fun q => exists s, rotationURL ns q = Ok s) before
       /\ rotationURL ns p = Err err))
  /\ ((exists err, setRotatinURL paths ns = Err err) <->
      (exists p err, In p paths /\ rotationURL ns p = Err err)).
Proof.
  split; [apply setRotatinURL_cases |].
  destruct (setRotatinURL_cases paths ns)
    as [(out & Hrun & _ & Hall) | (before & p & after & err & Hrun & -> & _ & Hp)].
  - split.
    + intros [err Herr]. rewrite Hrun in Herr. discriminate.
    + intros (p & err & Hin & Hp).
      apply list_elem_of_In, list_elem_of_lookup in Hin. destruct Hin as [i Hi].
      destruct (Hall i p Hi) as (s & _ & Hs). rewrite Hs in Hp. discriminate.
  - split.
    + intros _. exists p, err. split; [| exact Hp].
      apply in_or_app. right. now left.
    + intros _. eauto.
Qed.

(** A failure after a success: the first rewritten entry is not
    returned. *)
Example setRotatinURL_no_partial_result :
  @setRotatinURL linux ["/var/log/app.log"; "file://host/x.log"; "stderr"]
    "rotation-abc" =
  Err (errorString
         "file URLs must leave host empty or use localhost: got file://host/x.log").
Proof. reflexivity. Qed.

(* ================================================================== *)
(** * Building the logger *)

(** C10.  Without a rotation section, or with one that is not enabled,
    [newLogger] draws no identifier and registers no resolver: it goes
    straight to building the logger, in the world it was called in, from
    a configuration whose output paths and error output paths are the
    configured lists, unchanged and unchecked. *)
Theorem newLogger_without_rotation `{Platform} `{Libraries}
    (cfg : LogsConfig) (options : list Option_) (w : World) :
  (Rotation cfg = None
   \/ exists rotation,
        Rotation cfg = Some rotation
        /\ configrotate.Enabled rotation = false) ->
  exists zapCfg,
    newLogger cfg options w = Build zapCfg options w
    /\ zap.OutputPaths zapCfg = OutputPaths cfg
    /\ zap.ErrorOutputPaths zapCfg = ErrorOutputPaths cfg.
Proof.
  intros Hrot.
  assert (Hskip : forall c : zap.Config Fields,
    match Rotation cfg with
    | Some rotation =>
        if configrotate.Enabled rotation then
          do! id := newUUID in
          let rotationSchema := "rotation-" ++ id in
          do! _ := registerSink rotationSchema
                     (getRotationSinkFactory rotation) in
          do! outputPaths :=
            lift (setRotatinURL (zap.OutputPaths c) rotationSchema) in
          let c := withOutputPaths outputPaths c in
          do! errorOutputPaths :=
            lift (setRotatinURL (zap.ErrorOutputPaths c) rotationSchema) in
          ret (withErrorOutputPaths errorOutputPaths c)
        else ret c
    | None => ret c
    end = ret c).
  { intros c. destruct Hrot as [-> | (rotation & -> & ->)]; reflexivity. }
  unfold newLogger.
  destruct (String.eqb (zap.Encoding (initialZapConfig cfg)) "console");
    rewrite Hskip; eexists; (split; [reflexivity |]); split; reflexivity.
Qed.

Lemma newLogger_without_rotation_witness :
  exists zapCfg,
    @newLogger linux sim.simOS sim.simLibraries
      (sim.sampleLogs (Some (configrotate.mkConfig false 100 30 100 false)))
      [] sim.start
    = (sim.start, Ok zapCfg)
    /\ zap.OutputPaths zapCfg = ["file://me@host:80/app.log?x#y"]
    /\ zap.ErrorOutputPaths zapCfg = ["stderr"].
Proof.
  destruct (@newLogger_without_rotation linux sim.simOS sim.simLibraries
              (sim.sampleLogs (Some (configrotate.mkConfig false 100 30 100 false)))
              [] sim.start)
    as (zapCfg & Hrun & Hout & Herr).
  - right. eexists. split; reflexivity.
  - exists zapCfg. rewrite Hrun. repeat split; assumption.
Defined.

(** The same lists under an enabled policy: the resolver is registered
    and the first list is refused. *)
Example newLogger_with_rotation_checks :
  @newLogger linux sim.simOS sim.simLibraries
    (sim.sampleLogs (Some (configrotate.mkConfig true 100 30 100 false)))
    [] sim.start
  = (sim.mkState [] ["rotation-123e4567-e89b-42d3-a456-426614174000"],
     Err (errorString
            "user and password not allowed with file URLs: got file://me@host:80/app.log?x#y")).
Proof. reflexivity. Qed.

(* ================================================================== *)
(** * More facts about strings and queries *)

Lemma prefix_empty (s : string) : String.prefix "" s = true.
Proof. now destruct s. Qed.

Lemma Index_app_absent (d : byte) (a b : string) :
  absent d a = true ->
  strings.Index (a ++ String d b) (String d "") = Some (len a).
Proof.
  unfold absent. induction a as [| c a IH]; cbn [allBytes].
  - intros _. change ("" ++ String d b) with (String d b).
    cbn [strings.Index String.prefix].
    destruct (ascii_dec d d) as [_ | Hne]; [| congruence].
    now rewrite prefix_empty.
  - intros [Hc Ha]%andb_prop.
    change (String c a ++ String d b) with (String c (a ++ String d b)).
    cbn [strings.Index String.prefix].
    destruct (ascii_dec d c) as [-> | _].
    + now rewrite Ascii.eqb_refl in Hc.
    + rewrite (IH Ha). reflexivity.
Qed.

Lemma Cut_app_absent (d : byte) (a b : string) :
  absent d a = true ->
  strings.Cut (a ++ String d b) (String d "") = (a, b, true).
Proof.
  intros Ha. unfold strings.Cut. rewrite (Index_app_absent d a b Ha).
  rewrite upto_app.
  change (a ++ String d b) with (a ++ (String d "" ++ b)).
  rewrite <- append_assoc.
  replace (len a + len (String d "")) with (len (a ++ String d ""))
    by apply len_app.
  now rewrite from_app.
Qed.

Lemma stringContainsCTLByte_app (a b : string) :
  url.stringContainsCTLByte (a ++ b) =
  url.stringContainsCTLByte a || url.stringContainsCTLByte b.
Proof.
  induction a as [| c a IH]; [reflexivity |].
  change (String c a ++ b) with (String c (a ++ b)).
  cbn [url.stringContainsCTLByte].
  destruct ((code c <? code " ")%N || (code c =? 127)%N); [reflexivity | exact IH].
Qed.



Lemma from_len (s : string) : from (len s) s = "".
Proof. induction s as [| c s IH]; [reflexivity | exact IH]. Qed.



(** A URL made of a scheme and a query alone. *)
Lemma Parse_scheme_query (ns q : string) :
  validScheme ns = true ->
  q <> "" ->
  absent "#" q = true ->
  absent "?" q = true ->
  url.stringContainsCTLByte q = false ->
  url.Parse (ns ++ ":?" ++ q) =
    Ok (url.mkURL (strings.ToLower ns) "" None "" "" "" false false q "" "").
Proof.
  intros Hns Hq Hhash Hquest Hctl.
  pose proof (validScheme_bytes ns Hns) as Hbytes.
  assert (Hhash' : absent "#" (ns ++ ":?" ++ q) = true).
  { unfold absent in *. rewrite !allBytes_app, Hhash, andb_true_r.
    eapply allBytes_impl; [| exact Hbytes]. intros c Hc.
    destruct (schemeByte_facts c Hc) as (-> & _). reflexivity. }
  assert (Hctl' : url.stringContainsCTLByte (ns ++ ":?" ++ q) = false).
  { rewrite !stringContainsCTLByte_app, Hctl.
    change (url.stringContainsCTLByte ":?") with false. rewrite !orb_false_r.
    clear -Hbytes. induction ns as [| c s IH];
      cbn [allBytes url.stringContainsCTLByte] in *; [reflexivity |].
    apply andb_prop in Hbytes. destruct Hbytes as [Hc Hs].
    destruct (schemeByte_facts c Hc) as (_ & _ & ->). now apply IH. }
  unfold url.Parse. rewrite (Cut_absent "#" _ Hhash').
  unfold url.parse. rewrite Hctl'.
  assert (Hne : ((ns ++ ":?" ++ q) =? "")%string = false).
  { destruct ns; [discriminate | reflexivity]. }
  rewrite Hne. cbn [andb].
  assert (Hstar : ((ns ++ ":?" ++ q) =? "*")%string = false).
  { apply String.eqb_neq. intros Heq. apply (f_equal len) in Heq.
    rewrite !len_app in Heq. cbn in Heq. lia. }
  rewrite Hstar.
  change (ns ++ ":?" ++ q) with (ns ++ ":" ++ ("?" ++ q)).
  rewrite (getScheme_scheme ns _ Hns). cbn [bind].
  assert (Hsuf : strings.HasSuffix ("?" ++ q) "?" = false).
  { change ("?" ++ q) with (String "?" q).
    rewrite HasSuffix_cons; [now apply HasSuffix_absent | exact Hq]. }
  rewrite Hsuf. cbn [andb].
  assert (Hcut : strings.Cut ("?" ++ q) "?" = ("", q, true)).
  { change ("?" ++ q) with ("" ++ String "?" q). now apply Cut_app_absent. }
  rewrite Hcut.
  assert (Hlow : (strings.ToLower ns =? "")%string = false).
  { destruct ns; [discriminate | reflexivity]. }
  cbn [url.withScheme url.withRawQuery url.Scheme url.newURL strings.HasPrefix
       String.prefix negb andb].
  rewrite Hlow. reflexivity.
Qed.

Lemma QueryEscape_bytes (x : string) :
  allBytes escapedByte (url.QueryEscape x) = true.
Proof.
  unfold url.QueryEscape. rewrite escape_escapeBytes.
  apply escapeBytes_query_bytes.
Qed.

(** The rewritten form of any string parses into the namespace, in
    lower case, and the query [path=<escaped string>]. *)
Lemma Parse_rewritten_URL (ns x : string) :
  validScheme ns = true ->
  url.Parse (ns ++ ":?path=" ++ url.QueryEscape x) =
    Ok (url.mkURL (strings.ToLower ns) "" None "" "" "" false false
          ("path=" ++ url.QueryEscape x) "" "").
Proof.
  intros Hns. pose proof (QueryEscape_bytes x) as Hesc.
  set (esc := url.QueryEscape x) in *.
  assert (Htail : allBytes (fun c => escapedByte c || Ascii.eqb c "=")
                    ("path=" ++ esc) = true).
  { rewrite allBytes_app. apply andb_true_intro. split; [reflexivity |].
    eapply allBytes_impl; [| exact Hesc]. intros c ->. reflexivity. }
  change (ns ++ ":?path=" ++ esc) with (ns ++ ":?" ++ ("path=" ++ esc)).
  apply Parse_scheme_query; try exact Hns.
  - discriminate.
  - eapply allBytes_impl; [| exact Htail]. intros c Hc.
    revert Hc. bytecases c; vm_compute; congruence.
  - eapply allBytes_impl; [| exact Htail]. intros c Hc.
    revert Hc. bytecases c; vm_compute; congruence.
  - assert (Hall : allBytes (fun c => negb ((code c <? code " ")%N
                                            || (code c =? 127)%N))
                     ("path=" ++ esc) = true).
    { eapply allBytes_impl; [| exact Htail]. intros c Hc.
      revert Hc. bytecases c; vm_compute; congruence. }
    clear -Hall. induction ("path=" ++ esc) as [| c s IH];
      cbn [allBytes url.stringContainsCTLByte] in *; [reflexivity |].
    apply andb_prop in Hall. destruct Hall as [Hc Hs].
    apply negb_true_iff in Hc. rewrite Hc. now apply IH.
Qed.

(** X4.  Whatever bytes a string [x] holds, its rewritten form under a
    namespace that is a valid scheme parses as a URL whose scheme is the
    namespace in lower case and whose [path] parameter reads back as
    [x]. *)
Theorem rewritten_reads_back (ns x : string) :
  validScheme ns = true ->
  exists u,
    url.Parse (ns ++ ":?path=" ++ url.QueryEscape x) = Ok u
    /\ url.Scheme u = strings.ToLower ns
    /\ url.Get (url.Query u) "path" = x.
Proof.
  intros Hns. eexists. split; [apply (Parse_rewritten_URL ns x Hns) |].
  split; [reflexivity |]. now apply Get_path_of_query.
Qed.

Section Again.
Context `{Platform}.

Lemma rotationURL_rewritten_fixed (ns ns' x : string) :
  GOOS <> "windows" ->
  validScheme ns = true ->
  strings.ToLower ns <> "file" ->
  rotationURL ns' (ns ++ ":?path=" ++ url.QueryEscape x) =
    Ok (ns ++ ":?path=" ++ url.QueryEscape x).
Proof.
  intros Hos Hns Hfile.
  rewrite (rotationURL_parsed ns' _ _ (windowsAbs_off_windows _ Hos)
             (Parse_rewritten_URL ns x Hns)).
  unfold fileBacked. cbn [url.Scheme].
  apply String.eqb_neq in Hfile. rewrite Hfile.
  destruct ns; [discriminate | reflexivity].
Qed.

Lemma rotationURL_output_fixed (ns ns' p s : string) :
  GOOS <> "windows" ->
  validScheme ns = true ->
  strings.ToLower ns <> "file" ->
  rotationURL ns p = Ok s ->
  rotationURL ns' s = Ok s.
Proof.
  intros Hos Hns Hfile Hrun.
  pose proof (windowsAbs_off_windows p Hos) as Hw.
  destruct (url.Parse p) as [u | e] eqn:Hp.
  - rewrite (rotationURL_parsed ns p u Hw Hp) in Hrun.
    destruct (fileBacked u) eqn:Hfb.
    + destruct (firstViolation u); [discriminate |].
      injection Hrun as <-. now apply rotationURL_rewritten_fixed.
    + injection Hrun as <-.
      rewrite (rotationURL_parsed ns' p u Hw Hp), Hfb. reflexivity.
  - unfold rotationURL in Hrun. rewrite Hw, Hp in Hrun. discriminate.
Qed.

Lemma setRotatinURLFrom_fixed (ns : string) (l res : list string) :
  Forall (fun s => rotationURL ns s = Ok s) l ->
  setRotatinURLFrom l ns res = Ok (res ++ l)%list.
Proof.
  intros Hall. revert res. induction Hall as [| s l Hs _ IH]; intros res.
  - cbn. now rewrite app_nil_r.
  - cbn [setRotatinURLFrom]. rewrite Hs, IH. now rewrite <- app_assoc.
Qed.

End Again.

(** X3.  Off Windows, the result of a successful rewriting under a
    namespace that is a valid scheme other than [file] is left unchanged
    by a second rewriting, under any namespace: entries already
    rewritten are not wrapped twice. *)
Theorem setRotatinURL_idempotent `{Platform}
    (paths out : list string) (ns ns' : string) :
  GOOS <> "windows" ->
  validScheme ns = true ->
  strings.ToLower ns <> "file" ->
  setRotatinURL paths ns = Ok out ->
  setRotatinURL out ns' = Ok out.
Proof.
  intros Hos Hns Hfile Hrun. unfold setRotatinURL in *.
  destruct (setRotatinURLFrom_ok _ _ _ _ Hrun) as (out' & -> & Hall).
  cbn [app]. rewrite setRotatinURLFrom_fixed; [reflexivity |].
  clear Hrun. induction Hall as [| p s paths out' Hps _ IH]; constructor.
  - now apply (rotationURL_output_fixed ns ns' p s).
  - exact IH.
Qed.

Lemma unreservedByte_facts (c : byte) :
  unreservedByte c = true ->
  Ascii.eqb c "%" = false /\ Ascii.eqb c "+" = false
  /\ Ascii.eqb c "&" = false /\ Ascii.eqb c ";" = false
  /\ Ascii.eqb c "=" = false.
Proof. bytecases c; vm_compute; intros; repeat split; congruence. Qed.

Lemma unescapeScan_unreserved (s : string) (n : nat) (hasPlus : bool) :
  allBytes unreservedByte s = true ->
  url.unescapeScan s url.encodeQueryComponent n hasPlus = Ok (n, hasPlus).
Proof.
  revert n hasPlus. induction s as [| c s IH]; intros n hasPlus;
    cbn [allBytes url.unescapeScan]; [reflexivity |].
  intros [Hc Hs]%andb_prop.
  destruct (unreservedByte_facts c Hc) as (-> & -> & _).
  cbn [url.isHostMode andb]. now apply IH.
Qed.

Lemma QueryUnescape_unreserved (s : string) :
  allBytes unreservedByte s = true -> url.QueryUnescape s = Ok s.
Proof.
  intros Hs. unfold url.QueryUnescape, url.unescape.
  now rewrite (unescapeScan_unreserved s 0 false Hs).
Qed.

Lemma escaped_absent (d : byte) (x : string) :
  oneOf d "#?&;=:/*" = true ->
  absent d (url.QueryEscape x) = true.
Proof.
  intros Hd. eapply allBytes_impl; [| apply QueryEscape_bytes].
  intros c Hc. now apply escapedByte_not.
Qed.

Lemma unreserved_absent (d : byte) (k : string) :
  oneOf d "&;=" = true ->
  allBytes unreservedByte k = true ->
  absent d k = true.
Proof.
  intros Hd. apply allBytes_impl. intros c Hc.
  destruct (Ascii.eqb c d) eqn:He; [| reflexivity].
  apply Ascii.eqb_eq in He. subst d. revert Hd Hc.
  bytecases c; vm_compute; congruence.
Qed.

(** One setting [key=<escaped value>] of a query, with a key of
    unreserved bytes, adds the value to the values of the key. *)
Lemma parseQueryKey_setting (m : url.Values) (k v : string) (err : option error) :
  k <> "" ->
  allBytes unreservedByte k = true ->
  url.parseQueryKey m (k ++ "=" ++ url.QueryEscape v) err =
    (<[k := (default [] (m !! k) ++ [v])%list]> m, err).
Proof.
  intros Hk Hbytes. unfold url.parseQueryKey.
  assert (Hsemi : absent ";" (k ++ "=" ++ url.QueryEscape v) = true).
  { unfold absent. rewrite !allBytes_app. apply andb_true_intro. split.
    - now apply (unreserved_absent ";").
    - apply andb_true_intro. split; [reflexivity |].
      now apply (escaped_absent ";"). }
  rewrite (Contains_absent ";" _ Hsemi).
  assert (Hne : ((k ++ "=" ++ url.QueryEscape v) =? "")%string = false).
  { destruct k; [congruence | reflexivity]. }
  rewrite Hne.
  change (k ++ "=" ++ url.QueryEscape v) with (k ++ String "=" (url.QueryEscape v)).
  rewrite (Cut_app_absent "=" k _ (unreserved_absent "=" k eq_refl Hbytes)).
  rewrite (QueryUnescape_unreserved k Hbytes), QueryUnescape_QueryEscape.
  reflexivity.
Qed.

Lemma setting_no_amp (k v : string) :
  allBytes unreservedByte k = true ->
  absent "&" (k ++ "=" ++ url.QueryEscape v) = true.
Proof.
  intros Hbytes. unfold absent. rewrite !allBytes_app.
  apply andb_true_intro. split.
  - now apply (unreserved_absent "&").
  - apply andb_true_intro. split; [reflexivity |].
    now apply (escaped_absent "&").
Qed.

(** A query of one setting. *)
Lemma parseQuery_one_setting (m : url.Values) (k v : string) (err : option error) :
  k <> "" ->
  allBytes unreservedByte k = true ->
  url.parseQuery m (k ++ "=" ++ url.QueryEscape v) err =
    (<[k := (default [] (m !! k) ++ [v])%list]> m, err).
Proof.
  intros Hk Hbytes.
  pose proof (parseQueryKey_setting m k v err Hk Hbytes) as Hkey.
  pose proof (setting_no_amp k v Hbytes) as Hamp.
  destruct k as [| c k]; [congruence |].
  change (String c k ++ "=" ++ url.QueryEscape v)
    with (String c (k ++ "=" ++ url.QueryEscape v)) in *.
  rewrite url.parseQuery_equation_2. cbv zeta. unfold url.afterAmp.
  rewrite (Cut_absent "&" _ Hamp). cbn [fst snd].
  rewrite Hkey. cbn [fst snd]. now rewrite url.parseQuery_equation_1.
Qed.

(** A query of two settings. *)
Lemma parseQuery_two_settings (k1 v1 k2 v2 : string) :
  k1 <> "" -> k2 <> "" ->
  allBytes unreservedByte k1 = true ->
  allBytes unreservedByte k2 = true ->
  url.ParseQuery
    ((k1 ++ "=" ++ url.QueryEscape v1) ++ "&" ++ (k2 ++ "=" ++ url.QueryEscape v2)) =
  (<[k2 := (default [] ((<[k1 := [v1]]> ∅ : url.Values) !! k2) ++ [v2])%list]>
     (<[k1 := [v1]]> ∅), None).
Proof.
  intros Hk1 Hk2 Hb1 Hb2. unfold url.ParseQuery.
  pose proof (parseQueryKey_setting ∅ k1 v1 None Hk1 Hb1) as Hkey.
  pose proof (setting_no_amp k1 v1 Hb1) as Hamp.
  pose proof (Cut_app_absent "&" _ (k2 ++ "=" ++ url.QueryEscape v2) Hamp) as Hcut.
  change (String "&" (k2 ++ "=" ++ url.QueryEscape v2))
    with ("&" ++ (k2 ++ "=" ++ url.QueryEscape v2)) in Hcut.
  set (first := k1 ++ "=" ++ url.QueryEscape v1) in *.
  set (second := k2 ++ "=" ++ url.QueryEscape v2) in *.
  assert (Hcons : exists c q, first ++ "&" ++ second = String c q).
  { unfold first. destruct k1 as [| c k1]; [congruence |].
    eexists _, _. reflexivity. }
  destruct Hcons as (c & q & Hcons). rewrite Hcons in *.
  rewrite url.parseQuery_equation_2. cbv zeta. unfold url.afterAmp.
  rewrite Hcut. cbn [fst snd]. rewrite Hkey. cbn [fst snd].
  rewrite lookup_empty. cbn [default app].
  unfold second. now rewrite (parseQuery_one_setting _ k2 v2 None Hk2 Hb2).
Qed.

(* ================================================================== *)
(** * The resolver and the shape of the result *)

(** X6.  The path the resolver opens, by the shape of the query: the
    empty file name when the query is empty or holds no [path] setting,
    the value of [path] when it is there, and the first one when it is
    there twice; settings with other keys are ignored. *)
Theorem resolver_path_parameter `{OS}
    (cfg : configrotate.Config) (u : url.URL) (w : World)
    (k1 v1 k2 v2 : string) :
  k1 <> "" -> k2 <> "" ->
  allBytes unreservedByte k1 = true ->
  allBytes unreservedByte k2 = true ->
  (url.RawQuery u = "" ->
     getRotationSinkFactory cfg u w = sinkFor cfg "" w)
  /\ (url.RawQuery u = k1 ++ "=" ++ url.QueryEscape v1 ->
        getRotationSinkFactory cfg u w =
          sinkFor cfg (if String.eqb k1 "path" then v1 else "") w)
  /\ (url.RawQuery u =
        (k1 ++ "=" ++ url.QueryEscape v1) ++ "&" ++ (k2 ++ "=" ++ url.QueryEscape v2) ->
        getRotationSinkFactory cfg u w =
          sinkFor cfg (if String.eqb k1 "path" then v1
                       else if String.eqb k2 "path" then v2 else "") w).
Proof.
  intros Hk1 Hk2 Hb1 Hb2.
  assert (Hfact : forall p, url.Get (url.Query u) "path" = p ->
                            getRotationSinkFactory cfg u w = sinkFor cfg p w).
  { intros p <-. reflexivity. }
  split; [| split]; intros Hraw; apply Hfact; unfold url.Query, url.Get.
  - rewrite Hraw. reflexivity.
  - rewrite Hraw. unfold url.ParseQuery.
    rewrite (parseQuery_one_setting ∅ k1 v1 None Hk1 Hb1). cbn [fst].
    destruct (String.eqb_spec k1 "path") as [-> | Hne].
    + now rewrite lookup_insert_eq, lookup_empty.
    + now rewrite lookup_insert_ne, lookup_empty.
  - rewrite Hraw, (parseQuery_two_settings k1 v1 k2 v2 Hk1 Hk2 Hb1 Hb2).
    cbn [fst].
    destruct (String.eqb_spec k1 "path") as [-> | Hne1];
      destruct (String.eqb_spec k2 "path") as [-> | Hne2].
    + now rewrite !lookup_insert_eq.
    + rewrite lookup_insert_ne by congruence. now rewrite lookup_insert_eq.
    + rewrite lookup_insert_eq, lookup_insert_ne by congruence.
      now rewrite lookup_empty.
    + rewrite !lookup_insert_ne by congruence. now rewrite lookup_empty.
Qed.

(** X5.  A file-backed destination with no violation is rewritten to a
    string that parses as a URL of the namespace, for which the resolver
    opens the path of the parsed destination (percent-decoded, host and
    scheme dropped). *)
Theorem rotated_destination_opens_parsed_path `{Platform} `{OS}
    (cfg : configrotate.Config) (ns p : string) (u : url.URL) (w : World) :
  windowsAbs p = false ->
  url.Parse p = Ok u ->
  fileBacked u = true ->
  firstViolation u = None ->
  validScheme ns = true ->
  exists s v,
    rotationURL ns p = Ok s
    /\ url.Parse s = Ok v
    /\ url.Scheme v = strings.ToLower ns
    /\ getRotationSinkFactory cfg v w = sinkFor cfg (url.Path u) w.
Proof.
  intros Hw Hp Hfb Hnone Hns.
  set (v := url.mkURL (strings.ToLower ns) "" None "" "" "" false false
              ("path=" ++ url.QueryEscape (url.Path u)) "" "").
  exists (ns ++ ":?path=" ++ url.QueryEscape (url.Path u)), v.
  split; [| split; [apply (Parse_rewritten_URL ns _ Hns) |]].
  - rewrite (rotationURL_parsed ns p u Hw Hp), Hfb, Hnone. reflexivity.
  - split; [reflexivity |].
    unfold getRotationSinkFactory, sinkFor.
    rewrite (Get_path_of_query v (url.Path u) eq_refl). reflexivity.
Qed.

(** X2.  A rewritten entry is either a namespace URL whose text after
    [path=] holds only letters, digits and [- _ . ~ % +], or the input
    itself, and then the input parses as a URL that is not file-backed:
    no file destination leaves the loop unwrapped. *)
Theorem rotationURL_output_shape `{Platform} (ns p s : string) :
  rotationURL ns p = Ok s ->
  (exists x, s = ns ++ ":?path=" ++ url.QueryEscape x
             /\ allBytes escapedByte (url.QueryEscape x) = true)
  \/ (s = p /\ exists u, url.Parse p = Ok u /\ fileBacked u = false).
Proof.
  intros Hrun. unfold rotationURL in Hrun.
  destruct (windowsAbs p) eqn:Hw.
  - injection Hrun as <-. left. exists p. split; [reflexivity |].
    apply QueryEscape_bytes.
  - assert (Hagain : rotationURL ns p = Ok s).
    { unfold rotationURL. now rewrite Hw. }
    destruct (url.Parse p) as [u | e] eqn:Hp; [| discriminate].
    rewrite (rotationURL_parsed ns p u Hw Hp) in Hagain.
    destruct (fileBacked u) eqn:Hfb.
    + destruct (firstViolation u); [discriminate |].
      injection Hagain as <-. left. exists (url.Path u).
      split; [reflexivity | apply QueryEscape_bytes].
    + injection Hagain as <-. right. eauto.
Qed.

Section Concat.
Context `{Platform}.

Lemma setRotatinURLFrom_res (ns : string) (paths res : list string) :
  setRotatinURLFrom paths ns res =
    match setRotatinURLFrom paths ns [] with
    | Ok out => Ok (res ++ out)%list
    | Err e => Err e
    end.
Proof.
  revert res. induction paths as [| p paths IH]; intros res;
    cbn [setRotatinURLFrom].
  - now rewrite app_nil_r.
  - destruct (rotationURL ns p) as [s | e]; [| reflexivity].
    rewrite (IH (res ++ [s])%list), (IH ([] ++ [s])%list).
    destruct (setRotatinURLFrom paths ns []); [| reflexivity].
    now rewrite <- app_assoc.
Qed.

End Concat.

(** X1.  Rewriting a concatenation is the concatenation of the
    rewritings, and it fails with the first error, that of the first
    list if it has one. *)
Theorem setRotatinURL_app `{Platform} (xs ys : list string) (ns : string) :
  setRotatinURL (xs ++ ys) ns =
    match setRotatinURL xs ns with
    | Ok outX =>
        match setRotatinURL ys ns with
        | Ok outY => Ok (outX ++ outY)%list
        | Err e => Err e
        end
    | Err e => Err e
    end.
Proof.
  unfold setRotatinURL.
  assert (Hgen : forall res,
    setRotatinURLFrom (xs ++ ys) ns res =
      match setRotatinURLFrom xs ns res with
      | Ok r => setRotatinURLFrom ys ns r
      | Err e => Err e
      end).
  { induction xs as [| x xs IH]; intros res; cbn [app setRotatinURLFrom];
      [reflexivity |].
    destruct (rotationURL ns x); [apply IH | reflexivity]. }
  rewrite Hgen. destruct (setRotatinURLFrom xs ns []) as [outX | e];
    [| reflexivity].
  apply setRotatinURLFrom_res.
Qed.

(* ================================================================== *)
(** * The logger under an enabled policy *)

Section EnabledRun.
Context `{Platform} `{Libraries}.

(** The run of [newLogger] under an enabled policy, step by step. *)
Lemma newLogger_enabled_run (cfg : LogsConfig) (options : list Option_)
    (rotation : configrotate.Config) (w w1 : World) (id : string) :
  Rotation cfg = Some rotation ->
  configrotate.Enabled rotation = true ->
  uuid_NewString w = (w1, id) ->
  newLogger cfg options w =
    match RegisterSink (nopSyncSink Writer) ("rotation-" ++ id)
            (getRotationSinkFactory rotation) w1 with
    | (w2, Some e) => (w2, Err e)
    | (w2, None) =>
        match setRotatinURL (OutputPaths cfg) ("rotation-" ++ id) with
        | Err e => (w2, Err e)
        | Ok out =>
            match setRotatinURL (ErrorOutputPaths cfg) ("rotation-" ++ id) with
            | Err e => (w2, Err e)
            | Ok errOut => Build (frontendConfig cfg out errOut) options w2
            end
        end
    end.
Proof.
  intros Hrot Hen Hid. unfold newLogger. rewrite Hrot, Hen.
  unfold iobind at 1. unfold iobind at 1. unfold newUUID. rewrite Hid.
  unfold iobind at 1. unfold registerSink.
  destruct (RegisterSink _ _ _ w1) as [w2 [e |]]; [reflexivity |].
  unfold frontendConfig, initialZapConfig.
  destruct (String.eqb (Encoding cfg) "console") eqn:Hc;
    cbn [zap.Encoding zap.OutputPaths zap.ErrorOutputPaths withEncodeTime
         withOutputPaths withErrorOutputPaths];
    rewrite ?Hc;
    unfold iobind, lift, ret;
    cbn [zap.Encoding zap.OutputPaths zap.ErrorOutputPaths withEncodeTime
         withOutputPaths withErrorOutputPaths];
    (destruct (setRotatinURL (OutputPaths cfg) _) as [out | e];
       [| reflexivity]);
    cbn [zap.Encoding zap.OutputPaths zap.ErrorOutputPaths withEncodeTime
         withOutputPaths withErrorOutputPaths];
    (destruct (setRotatinURL (ErrorOutputPaths cfg) _) as [errOut | e];
       [| reflexivity]);
    reflexivity.
Qed.

End EnabledRun.

(** X11.  Under an enabled policy the resolver is registered first,
    under [rotation-<uuid>]; when the registration is refused,
    [newLogger] returns its error and builds no logger. *)
Theorem newLogger_registration_refused `{Platform} `{Libraries}
    (cfg : LogsConfig) (options : list Option_)
    (rotation : configrotate.Config) (w w1 w2 : World) (id : string)
    (e : error) :
  Rotation cfg = Some rotation ->
  configrotate.Enabled rotation = true ->
  uuid_NewString w = (w1, id) ->
  RegisterSink (nopSyncSink Writer) ("rotation-" ++ id)
    (getRotationSinkFactory rotation) w1 = (w2, Some e) ->
  newLogger cfg options w = (w2, Err e).
Proof.
  intros Hrot Hen Hid Hreg.
  rewrite (newLogger_enabled_run cfg options rotation w w1 id Hrot Hen Hid).
  now rewrite Hreg.
Qed.

(** X12.  Under an enabled policy, when an output path, or else an
    error output path, cannot be rewritten, [newLogger] returns that
    error in the state the registration left: the resolver stays
    registered and no logger is built.  The output paths are checked
    first. *)
Theorem newLogger_invalid_path_keeps_registration `{Platform} `{Libraries}
    (cfg : LogsConfig) (options : list Option_)
    (rotation : configrotate.Config) (w w1 w2 : World) (id : string) :
  Rotation cfg = Some rotation ->
  configrotate.Enabled rotation = true ->
  uuid_NewString w = (w1, id) ->
  RegisterSink (nopSyncSink Writer) ("rotation-" ++ id)
    (getRotationSinkFactory rotation) w1 = (w2, None) ->
  (forall e,
     setRotatinURL (OutputPaths cfg) ("rotation-" ++ id) = Err e ->
     newLogger cfg options w = (w2, Err e))
  /\ (forall out e,
        setRotatinURL (OutputPaths cfg) ("rotation-" ++ id) = Ok out ->
        setRotatinURL (ErrorOutputPaths cfg) ("rotation-" ++ id) = Err e ->
        newLogger cfg options w = (w2, Err e)).
Proof.
  intros Hrot Hen Hid Hreg.
  rewrite (newLogger_enabled_run cfg options rotation w w1 id Hrot Hen Hid).
  rewrite Hreg. split.
  - intros e ->. reflexivity.
  - intros out e -> ->. reflexivity.
Qed.

(** X13.  Under an enabled policy, when both lists are rewritten, the
    logger is built after the registration from the two rewritten
    lists, made with the same namespace, and the other settings of the
    configuration unchanged; the time encoder is ISO 8601 exactly for
    the console encoding. *)
Theorem newLogger_enabled_builds `{Platform} `{Libraries}
    (cfg : LogsConfig) (options : list Option_)
    (rotation : configrotate.Config) (w w1 w2 : World) (id : string)
    (out errOut : list string) :
  Rotation cfg = Some rotation ->
  configrotate.Enabled rotation = true ->
  uuid_NewString w = (w1, id) ->
  RegisterSink (nopSyncSink Writer) ("rotation-" ++ id)
    (getRotationSinkFactory rotation) w1 = (w2, None) ->
  setRotatinURL (OutputPaths cfg) ("rotation-" ++ id) = Ok out ->
  setRotatinURL (ErrorOutputPaths cfg) ("rotation-" ++ id) = Ok errOut ->
  newLogger cfg options w = Build (frontendConfig cfg out errOut) options w2.
Proof.
  intros Hrot Hen Hid Hreg Hout Herr.
  rewrite (newLogger_enabled_run cfg options rotation w w1 id Hrot Hen Hid).
  now rewrite Hreg, Hout, Herr.
Qed.

(** X14.  Without an enabled policy the logger is built at once from
    the configured settings, all of them unchanged; the time encoder is
    ISO 8601 exactly for the console encoding. *)
Theorem newLogger_disabled_builds `{Platform} `{Libraries}
    (cfg : LogsConfig) (options : list Option_) (w : World) :
  (Rotation cfg = None
   \/ exists rotation,
        Rotation cfg = Some rotation
        /\ configrotate.Enabled rotation = false) ->
  newLogger cfg options w =
    Build (frontendConfig cfg (OutputPaths cfg) (ErrorOutputPaths cfg))
      options w.
Proof.
  intros Hrot. unfold newLogger, frontendConfig, initialZapConfig.
  destruct Hrot as [-> | (rotation & -> & ->)];
    cbn [zap.Encoding];
    destruct (String.eqb (Encoding cfg) "console"); reflexivity.
Qed.

(* ================================================================== *)
(** * Destinations at the edges of URL syntax *)

Lemma hierByte_absent (d : byte) (s : string) :
  oneOf d "#?" = true ->
  allBytes hierByte s = true -> absent d s = true.
Proof.
  intros Hd. apply allBytes_impl. intros c Hc.
  destruct (Ascii.eqb c d) eqn:He; [| reflexivity].
  apply Ascii.eqb_eq in He. subst c.
  unfold hierByte in Hc. rewrite Hd, orb_true_r in Hc. discriminate.
Qed.

Lemma hierByte_no_control (s : string) :
  allBytes hierByte s = true -> url.stringContainsCTLByte s = false.
Proof.
  induction s as [| c s IH]; cbn [allBytes url.stringContainsCTLByte];
    [reflexivity |].
  intros [Hc Hs]%andb_prop. unfold hierByte in Hc.
  apply negb_true_iff, orb_false_elim in Hc. destruct Hc as [Hc _].
  rewrite Hc. now apply IH.
Qed.

Lemma plain_hierByte (p : string) :
  allBytes (fun c => negb (specialByte c)) p = true ->
  allBytes hierByte p = true.
Proof.
  apply allBytes_impl. intros c. unfold specialByte, hierByte.
  bytecases c; vm_compute; congruence.
Qed.

Lemma prefix_app (a b : string) : String.prefix a (a ++ b) = true.
Proof.
  induction a as [| c a IH]; [apply prefix_empty |].
  change (String c a ++ b) with (String c (a ++ b)).
  cbn [String.prefix]. destruct (ascii_dec c c); [exact IH | congruence].
Qed.

Lemma long_not_star (a b : string) :
  2 <= len a -> ((a ++ b) =? "*")%string = false.
Proof.
  intros Hlen. apply String.eqb_neq. intros Heq.
  apply (f_equal len) in Heq. rewrite len_app in Heq. cbn in Heq. lia.
Qed.

Lemma cons_not_empty (a b : string) :
  1 <= len a -> ((a ++ b) =? "")%string = false.
Proof.
  intros Hlen. apply String.eqb_neq. intros Heq.
  apply (f_equal len) in Heq. rewrite len_app in Heq. cbn in Heq. lia.
Qed.

(** A [file:] URL whose text after the colon does not start with a
    slash is opaque: its path is empty. *)
Lemma Parse_file_opaque (rest : string) :
  allBytes hierByte rest = true ->
  strings.HasPrefix rest "/" = false ->
  url.Parse ("file:" ++ rest) =
    Ok (url.mkURL "file" rest None "" "" "" false false "" "" "").
Proof.
  intros Hbytes Hslash.
  pose proof (hierByte_absent "#" rest eq_refl Hbytes) as Hhash.
  pose proof (hierByte_absent "?" rest eq_refl Hbytes) as Hquest.
  assert (Hhash' : absent "#" ("file:" ++ rest) = true).
  { unfold absent in *. now rewrite allBytes_app, Hhash. }
  unfold url.Parse. rewrite (Cut_absent "#" _ Hhash').
  unfold url.parse.
  rewrite stringContainsCTLByte_app, (hierByte_no_control rest Hbytes).
  change (url.stringContainsCTLByte "file:") with false. cbn [orb].
  rewrite (cons_not_empty "file:" rest) by (cbn; lia).
  rewrite (long_not_star "file:" rest) by (cbn; lia). cbn [andb].
  change ("file:" ++ rest) with ("file" ++ ":" ++ rest).
  rewrite (getScheme_scheme "file" rest eq_refl). cbn [bind].
  rewrite (HasSuffix_absent "?" rest Hquest). cbn [andb].
  rewrite (Cut_absent "?" rest Hquest).
  change (strings.ToLower "file") with "file".
  cbn [url.withScheme url.withRawQuery url.Scheme url.newURL].
  rewrite Hslash. reflexivity.
Qed.

(** X7.  A [file:] URL whose text after the colon does not start with
    a slash ([file:stdout], [file:logs/app.log]) is opaque to the
    parser: its path is empty, so it passes every check and is rewritten
    to the namespace with an empty path. *)
Theorem file_URL_without_slash_loses_path `{Platform} (ns rest : string) :
  windowsAbs ("file:" ++ rest) = false ->
  allBytes hierByte rest = true ->
  strings.HasPrefix rest "/" = false ->
  rotationURL ns ("file:" ++ rest) = Ok (ns ++ ":?path=").
Proof.
  intros Hw Hbytes Hslash.
  rewrite (rotationURL_parsed ns _ _ Hw (Parse_file_opaque rest Hbytes Hslash)).
  reflexivity.
Qed.

(** X10.  A destination with a control byte before its first [#] is
    refused with the parser's error, whatever its scheme, keywords
    included. *)
Theorem control_byte_refused `{Platform} (ns p : string) :
  windowsAbs p = false ->
  url.stringContainsCTLByte (strings.Cut p "#").1.1 = true ->
  rotationURL ns p =
    Err (url_Error "parse" (strings.Cut p "#").1.1
           (errorString "net/url: invalid control character in URL")).
Proof.
  intros Hw Hctl. unfold rotationURL. rewrite Hw. unfold url.Parse.
  destruct (strings.Cut p "#") as [[u frag] found]. cbn [fst] in Hctl.
  unfold url.parse. rewrite Hctl. reflexivity.
Qed.

Lemma LastIndex_absent (d : byte) (s : string) :
  absent d s = true -> strings.LastIndex s (String d "") = None.
Proof.
  unfold absent. induction s as [| c s IH]; cbn [allBytes strings.LastIndex];
    [reflexivity |].
  intros [Hc Hs]%andb_prop. rewrite (IH Hs). cbn [String.prefix].
  destruct (ascii_dec d c) as [-> |]; [| reflexivity].
  now rewrite Ascii.eqb_refl in Hc.
Qed.

Lemma HasPrefix_absent (d : byte) (s : string) :
  absent d s = true -> strings.HasPrefix s (String d "") = false.
Proof.
  unfold absent, strings.HasPrefix. destruct s as [| c s]; [reflexivity |].
  cbn [allBytes String.prefix]. intros [Hc _]%andb_prop.
  destruct (ascii_dec d c) as [-> |]; [| reflexivity].
  now rewrite Ascii.eqb_refl in Hc.
Qed.

Lemma unreserved_host_facts (c : byte) :
  unreservedByte c = true ->
  Ascii.eqb c "%" = false /\ Ascii.eqb c "+" = false
  /\ url.shouldEscape c url.encodeHost = false
  /\ negb (Ascii.eqb c "@") = true /\ negb (Ascii.eqb c ":") = true
  /\ negb (Ascii.eqb c "[") = true /\ negb (Ascii.eqb c "/") = true
  /\ negb (Ascii.eqb c "#") = true /\ negb (Ascii.eqb c "?") = true
  /\ ((code c <? code " ")%N || (code c =? 127)%N) = false.
Proof. bytecases c; vm_compute; intros; repeat split; congruence. Qed.

Lemma unreserved_absent_host (d : byte) (h : string) :
  oneOf d "@:[/#?" = true ->
  allBytes unreservedByte h = true -> absent d h = true.
Proof.
  intros Hd. apply allBytes_impl. intros c Hc.
  destruct (Ascii.eqb c d) eqn:He; [| reflexivity].
  apply Ascii.eqb_eq in He. subst d. revert Hd Hc.
  bytecases c; vm_compute; congruence.
Qed.

Lemma unreserved_no_control (h : string) :
  allBytes unreservedByte h = true -> url.stringContainsCTLByte h = false.
Proof.
  induction h as [| c h IH]; cbn [allBytes url.stringContainsCTLByte];
    [reflexivity |].
  intros [Hc Hs]%andb_prop.
  destruct (unreserved_host_facts c Hc) as (_ & _ & _ & _ & _ & _ & _ & _ & _ & ->).
  now apply IH.
Qed.

Lemma unescapeScan_host (h : string) (n : nat) (hasPlus : bool) :
  allBytes unreservedByte h = true ->
  url.unescapeScan h url.encodeHost n hasPlus = Ok (n, hasPlus).
Proof.
  revert n hasPlus. induction h as [| c h IH]; intros n hasPlus;
    cbn [allBytes url.unescapeScan]; [reflexivity |].
  intros [Hc Hs]%andb_prop.
  destruct (unreserved_host_facts c Hc) as (-> & -> & -> & _).
  rewrite andb_false_r. now apply IH.
Qed.

(** A host of unreserved bytes is taken as it is, with no user and no
    port. *)
Lemma parseAuthority_plain_host (h : string) :
  allBytes unreservedByte h = true ->
  url.parseAuthority h = Ok (None, h)
  /\ url.splitHostPort h = (h, "").
Proof.
  intros Hh.
  pose proof (unreserved_absent_host "@" h eq_refl Hh) as Hat.
  pose proof (unreserved_absent_host ":" h eq_refl Hh) as Hcolon.
  pose proof (unreserved_absent_host "[" h eq_refl Hh) as Hbr.
  split.
  - unfold url.parseAuthority. rewrite (LastIndex_absent "@" h Hat).
    unfold url.parseHost.
    rewrite (HasPrefix_absent "[" h Hbr), (LastIndex_absent ":" h Hcolon).
    unfold url.unescape. rewrite (unescapeScan_host h 0 false Hh).
    reflexivity.
  - unfold url.splitHostPort, strings.LastIndexByte.
    rewrite (LastIndex_absent ":" h Hcolon), (HasPrefix_absent "[" h Hbr).
    reflexivity.
Qed.

(** The parse of [file://<host><path>]. *)
Lemma Parse_file_host (h p : string) :
  allBytes unreservedByte h = true ->
  allBytes (fun c => negb (specialByte c)) p = true ->
  strings.HasPrefix p "/" = true ->
  exists raw,
    url.Parse ("file://" ++ h ++ p) =
      Ok (url.mkURL "file" "" None h p raw false false "" "" "").
Proof.
  intros Hh Hp Hslash.
  pose proof (plain_hierByte p Hp) as Hhier.
  assert (Hrest : forall d, oneOf d "#?" = true ->
                            absent d ("//" ++ h ++ p) = true).
  { intros d Hd. unfold absent. rewrite !allBytes_app.
    apply andb_true_intro. split; [| apply andb_true_intro; split].
    - revert Hd. bytecases d; vm_compute; congruence.
    - apply (unreserved_absent_host d h); [| exact Hh].
      revert Hd. bytecases d; vm_compute; congruence.
    - now apply hierByte_absent. }
  assert (Hhash : absent "#" ("file://" ++ h ++ p) = true).
  { change ("file://" ++ h ++ p) with ("file:" ++ ("//" ++ h ++ p)).
    pose proof (Hrest "#"%char eq_refl) as Hr.
    unfold absent in *. now rewrite allBytes_app, Hr. }
  unfold url.Parse. rewrite (Cut_absent "#" _ Hhash).
  unfold url.parse.
  rewrite !stringContainsCTLByte_app, (unreserved_no_control h Hh),
    (hierByte_no_control p Hhier).
  change (url.stringContainsCTLByte "file://") with false. cbn [orb].
  rewrite (cons_not_empty "file://" (h ++ p)) by (cbn; lia).
  rewrite (long_not_star "file://" (h ++ p)) by (cbn; lia). cbn [andb].
  change ("file://" ++ h ++ p) with ("file" ++ ":" ++ ("//" ++ h ++ p)).
  rewrite (getScheme_scheme "file" _ eq_refl). cbn [bind].
  rewrite (HasSuffix_absent "?" _ (Hrest "?"%char eq_refl)). cbn [andb].
  rewrite (Cut_absent "?" _ (Hrest "?"%char eq_refl)).
  change (strings.ToLower "file") with "file".
  cbn [url.withScheme url.withRawQuery url.Scheme url.newURL].
  assert (Hone : strings.HasPrefix ("//" ++ h ++ p) "/" = true).
  { change ("//" ++ h ++ p) with ("/" ++ ("/" ++ h ++ p)). apply prefix_app. }
  assert (Htwo : strings.HasPrefix ("//" ++ h ++ p) "//" = true).
  { apply prefix_app. }
  rewrite Hone, Htwo.
  change (("file" =? "")%string) with false.
  cbn [negb andb orb].
  change (from 2 ("//" ++ h ++ p)) with (from (len "//") ("//" ++ (h ++ p))).
  rewrite from_app.
  destruct p as [| c p']; [discriminate |].
  assert (Hc : c = "/"%char).
  { unfold strings.HasPrefix in Hslash. cbn [String.prefix] in Hslash.
    destruct (ascii_dec "/" c); [congruence | discriminate]. }
  subst c.
  rewrite (Index_app_absent "/" h p' (unreserved_absent_host "/" h eq_refl Hh)).
  rewrite upto_app, from_app.
  destruct (parseAuthority_plain_host h Hh) as [-> _]. cbn [bind].
  unfold url.setPath.
  rewrite (unescape_path_no_percent _ (plain_absent "%" _ eq_refl Hp)).
  cbn [bind].
  destruct (String.eqb _ _); eexists; reflexivity.
Qed.

(** X8.  For [file://<host><path>], with a host of unreserved bytes and
    an absolute path without special bytes, the host decides: an empty
    host and [localhost] give the rewriting of the path alone, any other
    host the hostname error. *)
Theorem file_URL_host_decides `{Platform} (ns h p : string) :
  windowsAbs ("file://" ++ h ++ p) = false ->
  allBytes unreservedByte h = true ->
  allBytes (fun c => negb (specialByte c)) p = true ->
  strings.HasPrefix p "/" = true ->
  exists u,
    url.Parse ("file://" ++ h ++ p) = Ok u
    /\ url.Host u = h /\ url.Path u = p
    /\ rotationURL ns ("file://" ++ h ++ p) =
         if String.eqb h "" || String.eqb h "localhost"
         then Ok (ns ++ ":?path=" ++ url.QueryEscape p)
         else Err (errorfGot (complaint HostnamePart) u).
Proof.
  intros Hw Hh Hp Hslash.
  destruct (Parse_file_host h p Hh Hp Hslash) as [raw Hparse].
  eexists. split; [exact Hparse |]. split; [reflexivity |].
  split; [reflexivity |].
  rewrite (rotationURL_parsed ns _ _ Hw Hparse).
  assert (Hfb : fileBacked (url.mkURL "file" "" None h p raw false false "" "" "")
                = true).
  { unfold fileBacked. cbn [url.Scheme url.Path].
    destruct p as [| c p']; [discriminate |].
    unfold strings.HasPrefix in Hslash. cbn [String.prefix] in Hslash.
    destruct (ascii_dec "/" c) as [<- |]; [reflexivity | discriminate]. }
  rewrite Hfb. unfold firstViolation, checkOrder.
  cbn [List.find violates url.User url.Fragment url.RawQuery url.isSome
       String.eqb negb].
  unfold url.Port, url.Hostname. cbn [url.Host].
  destruct (parseAuthority_plain_host h Hh) as [_ ->]. cbn [fst snd String.eqb negb].
  destruct (String.eqb h ""); [reflexivity |].
  destruct (String.eqb h "localhost"); reflexivity.
Qed.




(* ================================================================== *)
(** * The further results at concrete inputs *)

Lemma rotationURL_output_shape_witness :
  (exists x, "rotation-abc:?path=%2Fvar%2Flog%2Fapp.log" =
               "rotation-abc" ++ ":?path=" ++ url.QueryEscape x
             /\ allBytes escapedByte (url.QueryEscape x) = true)
  \/ ("rotation-abc:?path=%2Fvar%2Flog%2Fapp.log" = "/var/log/app.log"
      /\ exists u, url.Parse "/var/log/app.log" = Ok u
                   /\ fileBacked u = false).
Proof.
  apply (@rotationURL_output_shape linux "rotation-abc" "/var/log/app.log").
  reflexivity.
Defined.

Lemma setRotatinURL_idempotent_witness :
  @setRotatinURL linux
    ["stderr"; "rotation-abc:?path=%2Fvar%2Flog%2Fapp.log"; "https://logs.example.com/in"]
    "rotation-other" =
  Ok ["stderr"; "rotation-abc:?path=%2Fvar%2Flog%2Fapp.log"; "https://logs.example.com/in"].
Proof.
  apply (@setRotatinURL_idempotent linux
           ["stderr"; "/var/log/app.log"; "https://logs.example.com/in"]
           _ "rotation-abc" "rotation-other").
  - discriminate.
  - reflexivity.
  - discriminate.
  - reflexivity.
Defined.

Lemma rewritten_reads_back_witness :
  exists u,
    url.Parse ("Rotation-1" ++ ":?path=" ++ url.QueryEscape "C:\logs\a b&c=d#?%.log")
      = Ok u
    /\ url.Scheme u = strings.ToLower "Rotation-1"
    /\ url.Get (url.Query u) "path" = "C:\logs\a b&c=d#?%.log".
Proof.
  apply (rewritten_reads_back "Rotation-1" "C:\logs\a b&c=d#?%.log").
  reflexivity.
Defined.

Lemma rotated_destination_opens_parsed_path_witness :
  exists s v,
    @rotationURL linux "rotation-abc" "file://localhost/var/log/a%20b.log" = Ok s
    /\ url.Parse s = Ok v
    /\ url.Scheme v = strings.ToLower "rotation-abc"
    /\ @getRotationSinkFactory sim.simOS
         (configrotate.mkConfig true 100 30 10 false) v sim.start =
       @sinkFor sim.simOS (configrotate.mkConfig true 100 30 10 false)
         "/var/log/a b.log" sim.start.
Proof.
  apply (@rotated_destination_opens_parsed_path linux sim.simOS
           (configrotate.mkConfig true 100 30 10 false) "rotation-abc"
           "file://localhost/var/log/a%20b.log"
           (url.mkURL "file" "" None "localhost" "/var/log/a b.log" ""
              false false "" "" "")
           sim.start); reflexivity.
Defined.

Lemma resolver_path_parameter_witness :
  @getRotationSinkFactory sim.simOS
    (configrotate.mkConfig true 100 30 10 false)
    (url.mkURL "rotation-abc" "" None "" "" "" false false
       "path=%2Ftmp%2Fa.log&path=%2Ftmp%2Fb.log" "" "")
    sim.start =
  @sinkFor sim.simOS (configrotate.mkConfig true 100 30 10 false)
    "/tmp/a.log" sim.start.
Proof.
  destruct (@resolver_path_parameter sim.simOS
              (configrotate.mkConfig true 100 30 10 false)
              (url.mkURL "rotation-abc" "" None "" "" "" false false
                 "path=%2Ftmp%2Fa.log&path=%2Ftmp%2Fb.log" "" "")
              sim.start "path" "/tmp/a.log" "path" "/tmp/b.log"
              ltac:(discriminate) ltac:(discriminate) eq_refl eq_refl)
    as (_ & _ & Htwo).
  exact (Htwo eq_refl).
Defined.

Lemma file_URL_without_slash_loses_path_witness :
  @rotationURL linux "rotation-abc" ("file:" ++ "logs/app.log") =
    Ok ("rotation-abc" ++ ":?path=").
Proof.
  apply (@file_URL_without_slash_loses_path linux "rotation-abc" "logs/app.log");
    reflexivity.
Defined.

Lemma control_byte_refused_witness :
  @rotationURL linux "rotation-abc" (String "009" "stdout") =
    Err (url_Error "parse" (String "009" "stdout")
           (errorString "net/url: invalid control character in URL")).
Proof.
  apply (@control_byte_refused linux "rotation-abc" (String "009" "stdout"));
    reflexivity.
Defined.

Lemma file_URL_host_decides_witness :
  exists u,
    url.Parse ("file://" ++ "logs.example.com" ++ "/var/log/app.log") = Ok u
    /\ url.Host u = "logs.example.com" /\ url.Path u = "/var/log/app.log"
    /\ @rotationURL linux "rotation-abc"
         ("file://" ++ "logs.example.com" ++ "/var/log/app.log") =
       Err (errorfGot (complaint HostnamePart) u).
Proof.
  apply (@file_URL_host_decides linux "rotation-abc" "logs.example.com"
           "/var/log/app.log"); reflexivity.
Defined.


Lemma newLogger_registration_refused_witness :
  @newLogger linux sim.simOS sim.simLibraries
    (sim.sampleLogs (Some (configrotate.mkConfig true 100 30 100 false)))
    []
    (sim.mkState [] ["rotation-123e4567-e89b-42d3-a456-426614174000"]) =
  (sim.mkState [] ["rotation-123e4567-e89b-42d3-a456-426614174000"],
   Err (errorString "sink factory already registered")).
Proof.
  apply (@newLogger_registration_refused linux sim.simOS sim.simLibraries
           (sim.sampleLogs (Some (configrotate.mkConfig true 100 30 100 false)))
           [] (configrotate.mkConfig true 100 30 100 false)
           (sim.mkState [] ["rotation-123e4567-e89b-42d3-a456-426614174000"])
           (sim.mkState [] ["rotation-123e4567-e89b-42d3-a456-426614174000"])
           _ "123e4567-e89b-42d3-a456-426614174000"); reflexivity.
Defined.

Lemma newLogger_invalid_path_keeps_registration_witness :
  @newLogger linux sim.simOS sim.simLibraries
    (sim.sampleLogs (Some (configrotate.mkConfig true 100 30 100 false)))
    [] sim.start =
  (sim.mkState [] ["rotation-123e4567-e89b-42d3-a456-426614174000"],
   Err (errorString
          "user and password not allowed with file URLs: got file://me@host:80/app.log?x#y")).
Proof.
  destruct (@newLogger_invalid_path_keeps_registration linux sim.simOS
              sim.simLibraries
              (sim.sampleLogs (Some (configrotate.mkConfig true 100 30 100 false)))
              [] (configrotate.mkConfig true 100 30 100 false)
              sim.start sim.start
              (sim.mkState [] ["rotation-123e4567-e89b-42d3-a456-426614174000"])
              "123e4567-e89b-42d3-a456-426614174000"
              eq_refl eq_refl eq_refl eq_refl) as [Hout _].
  apply Hout. reflexivity.
Defined.

Lemma newLogger_enabled_builds_witness :
  @newLogger linux sim.simOS sim.simLibraries
    (@mkLogsConfig sim.simOS sim.simLibraries 0 false "console" false false
       None ["stderr"; "/var/log/app.log"] ["stderr"] tt
       (Some (configrotate.mkConfig true 100 30 100 false)))
    [] sim.start =
  (sim.mkState [] ["rotation-123e4567-e89b-42d3-a456-426614174000"],
   Ok (zap.mkConfig 0 false false false None "console"
         {| zap.EncodeTime := zap.ISO8601TimeEncoder |}
         ["stderr";
          "rotation-123e4567-e89b-42d3-a456-426614174000:?path=%2Fvar%2Flog%2Fapp.log"]
         ["stderr"] tt)).
Proof.
  rewrite (@newLogger_enabled_builds linux sim.simOS sim.simLibraries
             (@mkLogsConfig sim.simOS sim.simLibraries 0 false "console" false
                false None ["stderr"; "/var/log/app.log"] ["stderr"] tt
                (Some (configrotate.mkConfig true 100 30 100 false)))
             [] (configrotate.mkConfig true 100 30 100 false)
             sim.start sim.start
             (sim.mkState [] ["rotation-123e4567-e89b-42d3-a456-426614174000"])
             "123e4567-e89b-42d3-a456-426614174000"
             ["stderr";
              "rotation-123e4567-e89b-42d3-a456-426614174000:?path=%2Fvar%2Flog%2Fapp.log"]
             ["stderr"]
             eq_refl eq_refl eq_refl eq_refl eq_refl eq_refl).
  reflexivity.
Defined.

Lemma newLogger_disabled_builds_witness :
  @newLogger linux sim.simOS sim.simLibraries (sim.sampleLogs None) []
    sim.start =
  (sim.start,
   Ok (zap.mkConfig 0 false false false None "json"
         {| zap.EncodeTime := zap.EpochTimeEncoder |}
         ["file://me@host:80/app.log?x#y"] ["stderr"] tt)).
Proof.
  rewrite (@newLogger_disabled_builds linux sim.simOS sim.simLibraries
             (sim.sampleLogs None) [] sim.start).
  - reflexivity.
  - left. reflexivity.
Defined.

(* ================================================================== *)
(** * The namespace of [newLogger] *)

Lemma uuidByte_schemeByte (c : byte) :
  uuidByte c = true -> schemeByte c = true.
Proof. bytecases c; vm_compute; congruence. Qed.

(** X15.  For an identifier of hexadecimal digits and dashes, as
    [uuid.NewString] returns, the namespace [rotation-<id>] of
    [newLogger] is a valid URL scheme other than [file]; so every
    destination rewritten under it parses back with that scheme and
    gives the resolver its path. *)
Theorem rotation_namespace_is_scheme (id : string) :
  allBytes uuidByte id = true ->
  validScheme ("rotation-" ++ id) = true
  /\ strings.ToLower ("rotation-" ++ id) <> "file"
  /\ forall x,
       exists u,
         url.Parse (("rotation-" ++ id) ++ ":?path=" ++ url.QueryEscape x) = Ok u
         /\ url.Scheme u = strings.ToLower ("rotation-" ++ id)
         /\ url.Get (url.Query u) "path" = x.
Proof.
  intros Hid.
  assert (Hns : validScheme ("rotation-" ++ id) = true).
  { change ("rotation-" ++ id) with (String "r" ("otation-" ++ id)).
    cbn [validScheme]. rewrite allBytes_app.
    apply andb_true_intro. split; [reflexivity |].
    apply andb_true_intro. split; [reflexivity |].
    eapply allBytes_impl; [apply uuidByte_schemeByte | exact Hid]. }
  split; [exact Hns |]. split.
  - change ("rotation-" ++ id) with (String "r" ("otation-" ++ id)).
    cbn [strings.ToLower]. intros Heq. injection Heq as Hc _.
    revert Hc. vm_compute. discriminate.
  - intros x. eexists. split; [apply (Parse_rewritten_URL _ x Hns) |].
    split; [reflexivity |]. now apply Get_path_of_query.
Qed.

Lemma rotation_namespace_is_scheme_witness :
  validScheme ("rotation-" ++ "123e4567-e89b-42d3-a456-426614174000") = true
  /\ strings.ToLower ("rotation-" ++ "123e4567-e89b-42d3-a456-426614174000")
     <> "file"
  /\ forall x,
       exists u,
         url.Parse (("rotation-" ++ "123e4567-e89b-42d3-a456-426614174000")
                    ++ ":?path=" ++ url.QueryEscape x) = Ok u
         /\ url.Scheme u =
              strings.ToLower ("rotation-" ++ "123e4567-e89b-42d3-a456-426614174000")
         /\ url.Get (url.Query u) "path" = x.
Proof.
  apply (rotation_namespace_is_scheme "123e4567-e89b-42d3-a456-426614174000").
  reflexivity.
Defined.
